(** * week1/scraper.py: fetching a page, extracting its text and its links

    A shallow embedding of [fetch_website_contents], [fetch_website_links]
    and the class [WebsiteFetcher].  Python strings are modelled as [string]
    (one character per code point, code points below 256), Python integers
    as [Z], the parsed document as a tree of page elements, and the effects
    of the module (network requests, [print], raised exceptions, the
    attributes of a [WebsiteFetcher] instance) by a state-and-exception
    monad.  The HTTP client, the HTML parser and serialiser and [urljoin]
    are collaborators of the module and are taken as a parameter. *)

From Stdlib Require Import ZArith Lia Ascii DecimalString.
From Stdlib Require String.
From stdpp Require Import base option list gmap strings.

Local Open Scope Z_scope.

(** ** Python strings *)

Module Py.

(** [len(s)] *)
Definition len (s : string) : Z := Z.of_nat (String.length s).

Fixpoint take (n : nat) (s : string) : string :=
  match n, s with
  | S n', String c s' => String c (take n' s')
  | _, _ => EmptyString
  end.

(** [s[:n]].  A negative bound counts from the end of the string. *)
Definition slice_to (s : string) (n : Z) : string :=
  if 0 <=? n then take (Z.to_nat n) s
  else take (String.length s - Z.to_nat (- n)) s.

(** [str.isspace] on one character: tab to carriage return, the
    separators 28..31, the blank, NEL and the no-break space. *)
Definition isspace (c : ascii) : bool :=
  let n := N_of_ascii c in
  ((9 <=? n) && (n <=? 13) || (28 <=? n) && (n <=? 32)
   || (n =? 133) || (n =? 160))%N.

Fixpoint lstrip (s : string) : string :=
  match s with
  | String c s' => if isspace c then lstrip s' else s
  | EmptyString => EmptyString
  end.

Fixpoint rstrip (s : string) : string :=
  match s with
  | String c s' =>
      match rstrip s' with
      | EmptyString => if isspace c then EmptyString else String c EmptyString
      | r => String c r
      end
  | EmptyString => EmptyString
  end.

(** [s.strip()] *)
Definition strip (s : string) : string := rstrip (lstrip s).

(** [sep.join(l)] *)
Definition join (sep : string) (l : list string) : string :=
  String.concat sep l.

(** [str(n)] and the f-string conversion of an [int]. *)
Definition str_int (n : Z) : string :=
  NilZero.string_of_int (Z.to_int n).

(** Truth value of a string: non-empty. *)
Definition truthy (s : string) : bool :=
  match s with EmptyString => false | _ => true end.

End Py.

Abbreviation nl := (String "010" EmptyString) (only parsing).

(** ** The parsed document

    The tree that [BeautifulSoup(markup, "html.parser")] builds: tags with
    a name, an attribute dictionary and their contents, and strings.  Every
    string carries its bs4 class: [get_text] only keeps the classes
    [NavigableString] and [CData]; comments, declarations and the strings
    that bs4 stores under a class of their own are [OtherString]. *)

Inductive string_class := NavigableString | CData | Comment | OtherString.

#[warnings="-register-all"]
Inductive PageElement :=
| Text (cls : string_class) (s : string)
| Tag (name : string) (attrs : gmap string string) (contents : list PageElement).

(** The [BeautifulSoup] object itself is the tag named "[document]". *)
Definition document (contents : list PageElement) : PageElement :=
  Tag "[document]" ∅ contents.

Section PageElement_induction.
Variable P : PageElement → Prop.
Hypothesis HText : ∀ cls s, P (Text cls s).
Hypothesis HTag : ∀ name attrs cs, Forall P cs → P (Tag name attrs cs).

Fixpoint PageElement_tree_ind (e : PageElement) : P e :=
  match e with
  | Text cls s => HText cls s
  | Tag name attrs cs =>
      HTag name attrs cs
        ((fix all (l : list PageElement) : Forall P l :=
            match l with
            | [] => Forall_nil_2 P
            | c :: l' => Forall_cons_2 P c l' (PageElement_tree_ind c) (all l')
            end) cs)
  end.
End PageElement_induction.

(** [tag.descendants]: every element below [e], in document order. *)
Fixpoint descendants (e : PageElement) : list PageElement :=
  match e with
  | Text _ _ => []
  | Tag _ _ cs =>
      (fix below (l : list PageElement) : list PageElement :=
         match l with
         | [] => []
         | c :: l' => (c :: descendants c) ++ below l'
         end) cs
  end.

(** Does [e] match a tag-name filter, as in [find_all(names)]? *)
Definition named (names : list string) (e : PageElement) : bool :=
  match e with
  | Tag name _ _ => bool_decide (name ∈ names)
  | Text _ _ => false
  end.

(** [tag.find_all(names)], also written [tag(names)]. *)
Definition find_all (names : list string) (e : PageElement) : list PageElement :=
  filter (λ d, named names d) (descendants e).

(** [tag.find(name)]; [soup.title] and [soup.body] are [soup.find("title")]
    and [soup.find("body")].  [None] is Python's [None]. *)
Definition find (name : string) (e : PageElement) : option PageElement :=
  head (find_all [name] e).

(** [tag.string]: the single string below a tag, through single children;
    [None] when some tag on the way has no or several children. *)
Fixpoint dot_string (e : PageElement) : option string :=
  match e with
  | Text _ s => Some s
  | Tag _ _ [c] => dot_string c
  | Tag _ _ _ => None
  end.

(** The tree left by [for t in e(names): t.decompose()]: every tag below
    [e] whose name is in [names] is removed with all it contains. *)
Fixpoint decompose_all (names : list string) (e : PageElement) : PageElement :=
  match e with
  | Text _ _ => e
  | Tag name attrs cs =>
      Tag name attrs
        ((fix keep (l : list PageElement) : list PageElement :=
            match l with
            | [] => []
            | c :: l' =>
                if named names c then keep l'
                else decompose_all names c :: keep l'
            end) cs)
  end.

(** The string classes [get_text] looks at by default. *)
Definition interesting (cls : string_class) : bool :=
  match cls with NavigableString | CData => true | _ => false end.

(** One step of [_all_strings]: the string an element contributes. *)
Definition yielded (strip : bool) (e : PageElement) : option string :=
  match e with
  | Text cls s =>
      if interesting cls then
        if strip then
          let s' := Py.strip s in
          if Py.truthy s' then Some s' else None
        else Some s
      else None
  | Tag _ _ _ => None
  end.

Definition all_strings (strip : bool) (e : PageElement) : list string :=
  omap (yielded strip) (descendants e).

(** [tag.get_text(separator=sep, strip=strip)] *)
Definition get_text (sep : string) (strip : bool) (e : PageElement) : string :=
  Py.join sep (all_strings strip e).

(** [tag.get(key)] *)
Definition get (key : string) (e : PageElement) : option string :=
  match e with
  | Tag _ attrs _ => attrs !! key
  | Text _ _ => None
  end.

(** ** Exceptions

    The exception classes the module can meet: Python's own, those of
    [requests.exceptions] and bs4's [ParserRejectedMarkup], with the base
    classes each one is declared with. *)

Inductive exception_class :=
| BaseException | KeyboardInterrupt | Exception
| TypeError | ValueError | AttributeError | OSError
| ParserRejectedMarkup
| RequestException | HTTPError | ConnectionError | ProxyError | SSLError
| Timeout | ConnectTimeout | ReadTimeout | TooManyRedirects
| InvalidURL | MissingSchema | InvalidSchema
| ChunkedEncodingError | ContentDecodingError.

Global Instance exception_class_eq_dec : EqDecision exception_class.
Proof. solve_decision. Defined.

(** [cls.__bases__] *)
Definition bases (cls : exception_class) : list exception_class :=
  match cls with
  | BaseException => []
  | KeyboardInterrupt => [BaseException]
  | Exception => [BaseException]
  | TypeError | ValueError | AttributeError | OSError => [Exception]
  | ParserRejectedMarkup => [Exception]
  | RequestException => [OSError]
  | HTTPError | ConnectionError | Timeout | TooManyRedirects
  | ChunkedEncodingError | ContentDecodingError => [RequestException]
  | ProxyError | SSLError => [ConnectionError]
  | ConnectTimeout => [ConnectionError; Timeout]
  | ReadTimeout => [Timeout]
  | InvalidURL | MissingSchema | InvalidSchema => [RequestException; ValueError]
  end.

Fixpoint issubclass_upto (depth : nat) (cls super : exception_class) : bool :=
  bool_decide (cls = super) ||
  match depth with
  | O => false
  | S d => existsb (λ b, issubclass_upto d b super) (bases cls)
  end.

(** [issubclass(cls, super)]; no class is more than five steps below
    [BaseException]. *)
Definition issubclass (cls super : exception_class) : bool :=
  issubclass_upto 6 cls super.

(** The response of a request: [response.status_code], [response.reason],
    [response.url] and [response.content]. *)
Record Response := {
  status_code : Z;
  reason : string;
  response_url : string;
  content : string
}.

(** A raised exception: its class, [str(e)] and, for the exceptions of
    [requests], [e.response]. *)
Record exception := {
  exc_class : exception_class;
  exc_str : string;
  exc_response : option Response
}.

Definition isinstance (e : exception) (cls : exception_class) : bool :=
  issubclass (exc_class e) cls.

(** ** Effects

    A computation runs on a state and ends by returning a value or raising
    an exception; the state survives a raise. *)

Inductive outcome (A : Type) :=
| Return (a : A)
| Raise (e : exception).
Arguments Return {A} a.
Arguments Raise {A} e.

Definition Eff (St A : Type) : Type := St → outcome A * St.

Global Instance Eff_ret {St} : MRet (Eff St) :=
  λ A (a : A) st, (Return a, st).

Global Instance Eff_bind {St} : MBind (Eff St) :=
  λ A B (k : A → Eff St B) (m : Eff St A) st,
    match m st with
    | (Return a, st') => k a st'
    | (Raise e, st') => (Raise e, st')
    end.

Definition raise {St A} (e : exception) : Eff St A := λ st, (Raise e, st).

(** A collaborator's answer, taken into the computation. *)
Definition lift_outcome {St A} (o : outcome A) : Eff St A := λ st, (o, st).

(** The first [except] clause whose class the exception is an instance of. *)
Fixpoint select_handler {H : Type} (e : exception)
    (handlers : list (exception_class * H)) : option H :=
  match handlers with
  | [] => None
  | (cls, h) :: rest => if isinstance e cls then Some h else select_handler e rest
  end.

(** [try: body  except C1 as e: h1  except C2 as e: h2 ...].  An exception
    no clause matches, or one raised inside a handler, goes on to the
    caller. *)
Definition try_except {St A} (body : Eff St A)
    (handlers : list (exception_class * (exception → Eff St A))) : Eff St A :=
  λ st, match body st with
        | (Return a, st') => (Return a, st')
        | (Raise e, st') =>
            match select_handler e handlers with
            | Some h => h e st'
            | None => (Raise e, st')
            end
        end.

(** The process around the module: the URLs requested so far and the lines
    printed so far. *)
Record process := {
  requests_log : list string;
  stdout : list string
}.

(** The process after one more request, and after one more printed line. *)
Definition requested (url : string) (p : process) : process :=
  {| requests_log := requests_log p ++ [url]; stdout := stdout p |}.

Definition printed (line : string) (p : process) : process :=
  {| requests_log := requests_log p; stdout := stdout p ++ [line] |}.

Definition print (line : string) : Eff process unit :=
  λ st, (Return tt, printed line st).

(** The collaborators of the module. *)
Record World := {
  (** [requests.get(url, headers=headers, timeout=10)], as answered to the
      [n]-th request of the process *)
  requests_get : nat → string → gmap string string → Z → outcome Response;
  (** [BeautifulSoup(markup, "html.parser")] *)
  BeautifulSoup : string → outcome PageElement;
  (** [str(tag)] *)
  str_tag : PageElement → string;
  (** [urllib.parse.urljoin(base, url)] *)
  urljoin : string → string → outcome string
}.

(** ** The module *)

(** The module-level [headers]. *)
Definition headers : gmap string string :=
  {[ "User-Agent" :=
     "Mozilla/5.0 (Windows NT 10.0; Win64; x64) AppleWebKit/537.36 (KHTML, like Gecko) Chrome/117.0.0.0 Safari/537.36" ]}.

(** The tag names both extractors decompose before taking the text. *)
Definition irrelevant_tags : list string := ["script"; "style"; "img"; "input"].

(** [TypeError] of [None + "..."]. *)
Definition TypeError_None_plus_str : exception :=
  {| exc_class := TypeError;
     exc_str := "unsupported operand type(s) for +: 'NoneType' and 'str'";
     exc_response := None |}.

(** [AttributeError] of [None.status_code]. *)
Definition AttributeError_status_code : exception :=
  {| exc_class := AttributeError;
     exc_str := "'NoneType' object has no attribute 'status_code'";
     exc_response := None |}.

(** [a + b] for a left operand that is a string or [None]. *)
Definition add_str {St} (a : option string) (b : string) : Eff St string :=
  match a with
  | Some s => mret (s +:+ b)
  | None => raise TypeError_None_plus_str
  end.

(** The [HTTPError] that [raise_for_status] raises on [r]. *)
Definition HTTPError_of (r : Response) : exception :=
  {| exc_class := HTTPError;
     exc_str := Py.str_int (status_code r)
                +:+ (if status_code r <? 500 then " Client Error: " else " Server Error: ")
                +:+ reason r +:+ " for url: " +:+ response_url r;
     exc_response := Some r |}.

(** The statuses [raise_for_status] raises on: 4xx and 5xx. *)
Definition is_error_status (status : Z) : bool :=
  (400 <=? status) && (status <? 600).

(** [response.raise_for_status()] *)
Definition raise_for_status {St} (r : Response) : Eff St unit :=
  if is_error_status (status_code r)
  then raise (HTTPError_of r)
  else mret tt.

Section Scraper.
Context (w : World).

(** [requests.get(url, headers=headers, timeout=10)]: one more request
    of the process. *)
Definition get_url (url : string) : Eff process Response :=
  λ st, (requests_get w (length (requests_log st)) url headers 10,
         requested url st).

(** [soup.title.string if soup.title else "No title found"]; a tag is
    always true. *)
Definition title_of (soup : PageElement) : option string :=
  match find "title" soup with
  | Some title => dot_string title
  | None => Some "No title found"
  end.

(** Lines 12-54.  The loop of lines 25-26 decomposes inside [soup.body];
    [soup.body] of line 27 is that same tag, after the loop. *)
Definition fetch_website_contents (url : string) : Eff process string :=
  try_except
    (response ← get_url url;
     raise_for_status response;;
     soup ← lift_outcome (BeautifulSoup w (content response));
     let title := title_of soup in
     let text :=
       match find "body" soup with
       | Some body => get_text nl true (decompose_all irrelevant_tags body)
       | None => ""
       end in
     titled ← add_str title (nl +:+ nl);
     mret (Py.slice_to (titled +:+ text) 2000))
    [ (ConnectionError, λ e,
        print ("Connection Error: Could not connect to " +:+ url);;
        mret ("[Error: Could not connect to " +:+ url +:+ "]"));
      (Timeout, λ e,
        print ("Timeout Error: " +:+ url +:+ " took too long to respond");;
        mret ("[Error: Timeout for " +:+ url +:+ "]"));
      (HTTPError, λ e,
        match exc_response e with
        | Some r =>
            print ("HTTP Error " +:+ Py.str_int (status_code r) +:+ ": " +:+ url);;
            mret ("[Error: HTTP " +:+ Py.str_int (status_code r) +:+ " for " +:+ url +:+ "]")
        | None => raise AttributeError_status_code
        end);
      (RequestException, λ e,
        print ("Request Error: " +:+ url +:+ " - " +:+ Py.slice_to (exc_str e) 200);;
        mret ("[Error: Could not fetch " +:+ url +:+ "]"));
      (Exception, λ e,
        print ("Unexpected Error: " +:+ url +:+ " - " +:+ Py.slice_to (exc_str e) 200);;
        mret ("[Error: Unexpected error for " +:+ url +:+ "]")) ].

(** The loop of lines 70-75 and 132-136 over the anchors found, with
    [links] as built so far. *)
Fixpoint collect_links {St} (base : string) (anchors : list PageElement)
    (links : list string) : Eff St (list string) :=
  match anchors with
  | [] => mret links
  | link :: rest =>
      match get "href" link with
      | Some href =>
          if Py.truthy href then
            absolute_url ← lift_outcome (urljoin w base href);
            collect_links base rest (links ++ [absolute_url])
          else collect_links base rest links
      | None => collect_links base rest links
      end
  end.

(** Lines 57-84. *)
Definition fetch_website_links (url : string) : Eff process (list string) :=
  try_except
    (response ← get_url url;
     raise_for_status response;;
     soup ← lift_outcome (BeautifulSoup w (content response));
     collect_links url (find_all ["a"] soup) [])
    [ (RequestException, λ e,
        print ("Error fetching links from " +:+ url +:+ ": " +:+ Py.slice_to (exc_str e) 100);;
        mret []);
      (Exception, λ e,
        print ("Unexpected error fetching links from " +:+ url +:+ ": "
               +:+ Py.slice_to (exc_str e) 100);;
        mret []) ].

(** *** class WebsiteFetcher *)

(** The attributes of an instance; [soup = None] is Python's [None]. *)
Record WebsiteFetcher := {
  url : string;
  soup : option PageElement
}.

(** A method runs on the instance and the process. *)
Definition Method (A : Type) : Type := Eff (WebsiteFetcher * process) A.

Definition self : Method WebsiteFetcher := λ st, (Return st.1, st).

(** [self.soup = v] *)
Definition set_soup (v : option PageElement) : Method unit :=
  λ st, (Return tt, ({| url := url st.1; soup := v |}, st.2)).

(** A computation of the process, run from inside a method. *)
Definition io {A} (m : Eff process A) : Method A :=
  λ st, let '(o, p) := m st.2 in (o, (st.1, p)).

(** Lines 98-106. *)
Definition _fetch : Method unit :=
  try_except
    (this ← self;
     response ← io (get_url (url this));
     raise_for_status response;;
     doc ← lift_outcome (BeautifulSoup w (content response));
     set_soup (Some doc))
    [ (RequestException, λ e,
        this ← self;
        io (print ("Error fetching " +:+ url this +:+ ": " +:+ Py.slice_to (exc_str e) 100));;
        set_soup None) ].

(** Lines 93-96: [WebsiteFetcher(url)]. *)
Definition __init__ (u : string) : Eff process WebsiteFetcher :=
  λ p, match _fetch ({| url := u; soup := None |}, p) with
       | (Return _, (this, p')) => (Return this, p')
       | (Raise e, (_, p')) => (Raise e, p')
       end.

(** Lines 108-124.  [body_copy] is a document of its own, parsed from the
    markup of [self.soup.body]; the loop decomposes inside it. *)
Definition get_contents (max_length : Z) : Method string :=
  this ← self;
  match soup this with
  | None => mret ("[Error: Could not fetch " +:+ url this +:+ "]")
  | Some doc =>
      let title := title_of doc in
      text ← match find "body" doc with
             | Some body =>
                 body_copy ← lift_outcome (BeautifulSoup w (str_tag w body));
                 mret (get_text nl true (decompose_all irrelevant_tags body_copy))
             | None => mret ""
             end;
      titled ← add_str title (nl +:+ nl);
      mret (Py.slice_to (titled +:+ text) max_length)
  end.

(** Lines 126-138. *)
Definition get_links : Method (list string) :=
  this ← self;
  match soup this with
  | None => mret []
  | Some doc => collect_links (url this) (find_all ["a"] doc) []
  end.

End Scraper.

(** ** An instance of the collaborators

    A resolver after [urllib.parse.urljoin] for references without
    parameters, a serialiser and a parser that knows a given set of pages,
    to run the module on concrete pages. *)

Module Urllib.

(** [s.partition(c)]: the parts before and after the first [c]. *)
Fixpoint partition (c : ascii) (s : string) : option (string * string) :=
  match s with
  | EmptyString => None
  | String a s' =>
      if Ascii.eqb a c then Some (EmptyString, s')
      else '(l, r) ← partition c s'; Some (String a l, r)
  end.

(** [s.split(c)] *)
Fixpoint split (c : ascii) (s : string) : list string :=
  match s with
  | EmptyString => [EmptyString]
  | String a s' =>
      if Ascii.eqb a c then EmptyString :: split c s'
      else match split c s' with
           | seg :: segs => String a seg :: segs
           | [] => [String a EmptyString]
           end
  end.

Definition is_alpha (a : ascii) : bool :=
  let n := N_of_ascii a in
  ((65 <=? n) && (n <=? 90) || (97 <=? n) && (n <=? 122))%N.

(** Letters, digits and [+-.] *)
Definition scheme_char (a : ascii) : bool :=
  let n := N_of_ascii a in
  (is_alpha a || (48 <=? n) && (n <=? 57) || (n =? 43) || (n =? 45) || (n =? 46))%N.

Definition lower (a : ascii) : ascii :=
  let n := N_of_ascii a in
  if ((65 <=? n) && (n <=? 90))%N then ascii_of_N (n + 32) else a.

Fixpoint forall_chars (p : ascii → bool) (s : string) : bool :=
  match s with
  | EmptyString => true
  | String a s' => p a && forall_chars p s'
  end.

Fixpoint map_chars (f : ascii → ascii) (s : string) : string :=
  match s with
  | EmptyString => EmptyString
  | String a s' => String (f a) (map_chars f s')
  end.

(** The text up to the first of [/?#], and the rest. *)
Fixpoint splitnetloc (s : string) : string * string :=
  match s with
  | EmptyString => (EmptyString, EmptyString)
  | String a s' =>
      if Ascii.eqb a "/" || Ascii.eqb a "?" || Ascii.eqb a "#" then (EmptyString, s)
      else let '(l, r) := splitnetloc s' in (String a l, r)
  end.

Record SplitResult := {
  scheme : string; netloc : string; path : string;
  query : string; fragment : string
}.

(** [urlsplit(url, scheme)] *)
Definition urlsplit (url default_scheme : string) : SplitResult :=
  let '(sch, rest) :=
    match partition ":" url with
    | Some (String a pre, post) =>
        if is_alpha a && forall_chars scheme_char pre
        then (map_chars lower (String a pre), post)
        else (default_scheme, url)
    | _ => (default_scheme, url)
    end in
  let '(loc, rest) :=
    match rest with
    | String "/" (String "/" after) => splitnetloc after
    | _ => (EmptyString, rest)
    end in
  let '(rest, frag) := default (rest, EmptyString) (partition "#" rest) in
  let '(rest, qry) := default (rest, EmptyString) (partition "?" rest) in
  {| scheme := sch; netloc := loc; path := rest; query := qry; fragment := frag |}.

Definition uses_relative : list string :=
  [""; "ftp"; "http"; "gopher"; "nntp"; "imap"; "wais"; "file"; "https";
   "shttp"; "mms"; "prospero"; "rtsp"; "rtsps"; "rtspu"; "sftp"; "svn";
   "svn+ssh"; "ws"; "wss"].

Definition uses_netloc : list string :=
  [""; "ftp"; "http"; "gopher"; "nntp"; "telnet"; "imap"; "wais"; "file";
   "mms"; "https"; "shttp"; "snews"; "prospero"; "rtsp"; "rtsps"; "rtspu";
   "rsync"; "svn"; "svn+ssh"; "sftp"; "nfs"; "git"; "git+ssh"; "ws"; "wss"].

(** [urlunsplit] *)
Definition urlunsplit (r : SplitResult) : string :=
  let url := path r in
  let url :=
    if Py.truthy (netloc r)
       || (Py.truthy (scheme r) && bool_decide (scheme r ∈ uses_netloc)
           && negb (String.prefix "//" url))
    then "//" +:+ netloc r
         +:+ (if Py.truthy url && negb (String.prefix "/" url) then "/" +:+ url else url)
    else url in
  let url := if Py.truthy (scheme r) then scheme r +:+ ":" +:+ url else url in
  let url := if Py.truthy (query r) then url +:+ "?" +:+ query r else url in
  if Py.truthy (fragment r) then url +:+ "#" +:+ fragment r else url.

(** The segments left after [.] and [..] are resolved. *)
Fixpoint resolve (segments resolved : list string) : list string :=
  match segments with
  | [] => resolved
  | seg :: rest =>
      if String.eqb seg ".." then resolve rest (removelast resolved)
      else if String.eqb seg "." then resolve rest resolved
      else resolve rest (resolved ++ [seg])
  end.

(** [segments[1:-1] = filter(None, segments[1:-1])] *)
Definition drop_empty_inside (segments : list string) : list string :=
  match segments with
  | first :: rest =>
      first :: filter (λ s, Py.truthy s) (removelast rest) ++
      match last rest with Some l => [l] | None => [] end
  | [] => []
  end.

(** [urljoin(base, url)] *)
Definition urljoin (base url : string) : string :=
  if negb (Py.truthy base) then url
  else if negb (Py.truthy url) then base
  else
    let b := urlsplit base "" in
    let u := urlsplit url (scheme b) in
    if negb (String.eqb (scheme u) (scheme b))
       || negb (bool_decide (scheme u ∈ uses_relative)) then url
    else if bool_decide (scheme u ∈ uses_netloc) && Py.truthy (netloc u) then urlunsplit u
    else
      let loc := if bool_decide (scheme u ∈ uses_netloc) then netloc b else netloc u in
      if negb (Py.truthy (path u)) then
        urlunsplit {| scheme := scheme u; netloc := loc; path := path b;
                      query := if Py.truthy (query u) then query u else query b;
                      fragment := fragment u |}
      else
        let base_parts := split "/" (path b) in
        let base_parts :=
          match last base_parts with
          | Some EmptyString => base_parts
          | _ => removelast base_parts
          end in
        let segments :=
          if String.prefix "/" (path u) then split "/" (path u)
          else drop_empty_inside (base_parts ++ split "/" (path u)) in
        let resolved := resolve segments [] in
        let resolved :=
          match last segments with
          | Some seg =>
              if String.eqb seg "." || String.eqb seg ".." then resolved ++ [EmptyString]
              else resolved
          | None => resolved
          end in
        let joined := Py.join "/" resolved in
        urlunsplit {| scheme := scheme u; netloc := loc;
                      path := if Py.truthy joined then joined else "/";
                      query := query u; fragment := fragment u |}.

End Urllib.

Module Example.

Abbreviation dq := (String "034" EmptyString) (only parsing).

(** The markup of an element: tags with their attributes, strings as
    they are, comments between their marks. *)
Fixpoint render (e : PageElement) : string :=
  match e with
  | Text Comment s => "<!--" +:+ s +:+ "-->"
  | Text _ s => s
  | Tag name attrs cs =>
      "<" +:+ name
      +:+ String.concat ""
            (map (λ kv : string * string, " " +:+ kv.1 +:+ "=" +:+ dq +:+ kv.2 +:+ dq)
                 (map_to_list attrs))
      +:+ ">"
      +:+ (fix inside (l : list PageElement) : string :=
             match l with
             | [] => ""
             | c :: l' => render c +:+ inside l'
             end) cs
      +:+ "</" +:+ name +:+ ">"
  end.

(** A parser that knows the markup of some documents and takes anything
    else for one string. *)
Fixpoint parse (known : list (string * outcome PageElement)) (markup : string)
    : outcome PageElement :=
  match known with
  | [] => Return (document [Text NavigableString markup])
  | (m, doc) :: rest => if String.eqb m markup then doc else parse rest markup
  end.

Definition unreachable : exception :=
  {| exc_class := ConnectionError;
     exc_str := "Max retries exceeded";
     exc_response := None |}.

(** A network that answers the listed URLs and reaches no other host. *)
Fixpoint answer (sites : list (string * outcome Response)) (url : string)
    : outcome Response :=
  match sites with
  | [] => Raise unreachable
  | (u, r) :: rest => if String.eqb u url then r else answer rest url
  end.

Definition world (sites : list (string * outcome Response))
    (known : list (string * outcome PageElement)) : World :=
  {| requests_get := λ _ url _ _, answer sites url;
     BeautifulSoup := parse known;
     str_tag := render;
     urljoin := λ base url, Return (Urllib.urljoin base url) |}.

Definition page (status : Z) (url : string) (doc : PageElement) : Response :=
  {| status_code := status; reason := ""; response_url := url; content := render doc |}.

(** What the parser has to know of [doc]: its markup, and the markup of
    its body, which parses to a document around that body. *)
Definition known_of (doc : PageElement) : list (string * outcome PageElement) :=
  (render doc, Return doc) ::
  match find "body" doc with
  | Some body => [(render body, Return (document [body]))]
  | None => []
  end.

(** The world in which [url] answers with [status] and the page [doc]. *)
Definition serving (status : Z) (url : string) (doc : PageElement) : World :=
  world [(url, Return (page status url doc))] (known_of doc).

Definition html (head body : list PageElement) : PageElement :=
  document [Tag "html" ∅ [Tag "head" ∅ head; Tag "body" ∅ body]].

Definition a (href : option string) (text : string) : PageElement :=
  Tag "a" (match href with Some h => {[ "href" := h ]} | None => ∅ end)
      [Text NavigableString text].

Definition start : process := {| requests_log := []; stdout := [] |}.

Definition site : string := "https://site.test/page".

Definition p_ (text : string) : PageElement := Tag "p" ∅ [Text NavigableString text].

Definition title_ (contents : list PageElement) : PageElement := Tag "title" ∅ contents.

(** A titled page with one paragraph. *)
Definition greeting : PageElement :=
  html [title_ [Text NavigableString "T"]] [p_ "hello"].

(** The three anchors of the link example. *)
Definition three_anchors : PageElement :=
  html [] [a (Some "/x") "x"; a (Some "https://y.test") "y"; a None "z"].

(** A page with an empty title tag. *)
Definition untitled : PageElement := html [title_ []] [p_ "hi"].

(** A title that holds a string and a tag. *)
Definition mixed_title : PageElement :=
  title_ [Text NavigableString "a"; Tag "b" ∅ [Text NavigableString "c"]].

Definition mixed : PageElement := html [mixed_title] [p_ "hi"].

(** Two paragraphs with a blank between them, and no title. *)
Definition spaced : PageElement :=
  html [] [p_ "a"; Text NavigableString " "; p_ "b"].

(** A paragraph and a script. *)
Definition hi_and_script : PageElement :=
  html [] [p_ "hi"; Tag "script" ∅ [Text NavigableString "evil()"]].

(** [requests.exceptions.ConnectTimeout] and [ReadTimeout], as raised. *)
Definition connect_timeout : exception :=
  {| exc_class := ConnectTimeout;
     exc_str := "Connection to slow.test timed out. (connect timeout=10)";
     exc_response := None |}.

Definition read_timeout : exception :=
  {| exc_class := ReadTimeout;
     exc_str := "Read timed out. (read timeout=10)";
     exc_response := None |}.

(** A page the parser rejects. *)
Definition rejected : exception :=
  {| exc_class := ParserRejectedMarkup;
     exc_str := "expected name token";
     exc_response := None |}.

End Example.

(** ** What the statements speak of *)

(** [tag.contents] *)
Definition contents_of (e : PageElement) : list PageElement :=
  match e with
  | Tag _ _ cs => cs
  | Text _ _ => []
  end.

(** The request of [url] by the process [p] is answered without an error
    status, by a page that parses to [doc]. *)
Definition fetched (w : World) (p : process) (url : string) (doc : PageElement) : Prop :=
  ∃ r, requests_get w (length (requests_log p)) url headers 10 = Return r
       ∧ is_error_status (status_code r) = false
       ∧ BeautifulSoup w (content r) = Return doc.

(** The request of [url] by the process [p] fails with [e]: the client
    raises it, or [raise_for_status] does. *)
Inductive fetch_fails (w : World) (p : process) (url : string) : exception → Prop :=
| request_raises e :
    requests_get w (length (requests_log p)) url headers 10 = Raise e →
    fetch_fails w p url e
| status_raises r :
    requests_get w (length (requests_log p)) url headers 10 = Return r →
    is_error_status (status_code r) = true →
    fetch_fails w p url (HTTPError_of r).

(** The markup of the body of [doc] parses back to a document around that
    same body. *)
Definition faithful_copy (w : World) (doc : PageElement) : Prop :=
  ∀ body, find "body" doc = Some body →
          BeautifulSoup w (str_tag w body) = Return (document [body]).

(** The [text] of lines 24-29, for a parsed document. *)
Definition body_text (doc : PageElement) : string :=
  match find "body" doc with
  | Some body => get_text nl true (decompose_all irrelevant_tags body)
  | None => ""
  end.

(** The hrefs [collect_links] resolves: those present and not empty. *)
Definition hrefs (anchors : list PageElement) : list string :=
  filter (λ href, Py.truthy href) (omap (get "href") anchors).

(** [kept names e d]: [d] is below [e], and neither [d] nor a tag between
    [e] and [d] has its name in [names]. *)
Inductive kept (names : list string) : PageElement → PageElement → Prop :=
| kept_child name attrs cs c :
    c ∈ cs → named names c = false → kept names (Tag name attrs cs) c
| kept_below name attrs cs c d :
    c ∈ cs → named names c = false → kept names c d →
    kept names (Tag name attrs cs) d.

Global Instance string_class_eq_dec : EqDecision string_class.
Proof. solve_decision. Defined.

(** The strings below [e], in document order, each with its class. *)
Definition text_nodes (e : PageElement) : list (string_class * string) :=
  omap (λ d, match d with
             | Text cls s => Some (cls, s)
             | Tag _ _ _ => None
             end) (descendants e).

(** The body text as the specification words it: every text node that is
    left, of whatever class, trimmed, joined by one newline. *)
Definition body_text_as_worded (doc : PageElement) : string :=
  match find "body" doc with
  | Some body =>
      Py.join nl (Py.strip <$> (snd <$> text_nodes (decompose_all irrelevant_tags body)))
  | None => ""
  end.

(** An exception the handlers of the module-level functions can deal with:
    an instance of [Exception], with its response if it is an [HTTPError]. *)
Definition well_behaved (e : exception) : Prop :=
  isinstance e Exception = true
  ∧ (isinstance e HTTPError = true → is_Some (exc_response e)).

(** Collaborators that raise nothing else. *)
Definition raises_well (w : World) : Prop :=
  (∀ n u h t e, requests_get w n u h t = Raise e → well_behaved e)
  ∧ (∀ markup e, BeautifulSoup w markup = Raise e → well_behaved e)
  ∧ (∀ base href e, urljoin w base href = Raise e → well_behaved e).

Import Example.

(** A body whose first tag is a title that holds a script. *)
Definition title_in_body : PageElement :=
  html [] [title_ [Tag "script" ∅ [Text NavigableString "evil()"]]; p_ "hi"].

(** A body with a comment and with strings that bs4 keeps under a class of
    their own, beside its text. *)
Definition annotated : PageElement :=
  html [] [ p_ "K";
            Text Comment "c";
            Tag "rt" ∅ [Text OtherString "kan"];
            Tag "template" ∅ [Text OtherString "hello"];
            Text CData "x" ].

(** ** Further pages, failures and notions, for the properties of the effects *)

(** [KeyboardInterrupt], which is no [Exception]. *)
Definition keyboard_interrupt : exception :=
  {| exc_class := KeyboardInterrupt; exc_str := EmptyString; exc_response := None |}.

(** [requests.exceptions.TooManyRedirects], as raised. *)
Definition too_many_redirects : exception :=
  {| exc_class := TooManyRedirects;
     exc_str := "Exceeded 30 redirects.";
     exc_response := None |}.

(** The [ValueError] of [urljoin] on a reference with an open bracket. *)
Definition invalid_ipv6 : exception :=
  {| exc_class := ValueError; exc_str := "Invalid IPv6 URL"; exc_response := None |}.

(** The world [w] with another [urljoin]. *)
Definition with_urljoin (w : World) (join : string → string → outcome string) : World :=
  {| requests_get := requests_get w;
     BeautifulSoup := BeautifulSoup w;
     str_tag := str_tag w;
     urljoin := join |}.

(** A resolver that rejects the reference "http://[", as [urljoin] does. *)
Definition strict_urljoin (base href : string) : outcome string :=
  if String.eqb href "http://[" then Raise invalid_ipv6
  else Return (Urllib.urljoin base href).

(** A good anchor, one the resolver rejects, and a good one again. *)
Definition bad_anchor : PageElement :=
  html [] [a (Some "/x") "x"; a (Some "http://[") "bad"; a (Some "/y") "y"].

(** A string that is not empty and that stripping on either side leaves as
    it is. *)
Definition strip_fixed (s : string) : Prop :=
  Py.truthy s = true ∧ Py.lstrip s = s ∧ Py.rstrip s = s.

(** A string whose first and last characters are no whitespace. *)
Definition tidy (s : string) : Prop :=
  (∃ c rest, s = String c rest ∧ Py.isspace c = false)
  ∧ (∃ front c, s = front +:+ String c "" ∧ Py.isspace c = false).

(** [line] holds [u]. *)
Definition mentions (u line : string) : Prop := ∃ pre post, line = pre +:+ u +:+ post.

(** The process after a call: the request is logged, and at most one line,
    which holds the URL, is printed. *)
Definition one_request (u : string) (p p' : process) : Prop :=
  p' = requested u p ∨ ∃ line, mentions u line ∧ p' = printed line (requested u p).

(** The page of [u] is fetched without an error status and the parser
    raises [e] on it. *)
Definition parser_raises (w : World) (p : process) (u : string) (e : exception) : Prop :=
  ∃ r, requests_get w (length (requests_log p)) u headers 10 = Return r
       ∧ is_error_status (status_code r) = false
       ∧ BeautifulSoup w (content r) = Raise e.

(** * Properties *)

(** ** Examples *)

Example slice_to_pos : Py.slice_to "hello" 3 = "hel".
Proof. reflexivity. Qed.
Example slice_to_long : Py.slice_to "hello" 2000 = "hello".
Proof. reflexivity. Qed.
Example slice_to_neg : Py.slice_to "hello" (-1) = "hell".
Proof. reflexivity. Qed.
Example slice_to_neg_far : Py.slice_to "hello" (-9) = "".
Proof. reflexivity. Qed.
Example strip_both : Py.strip "  a b
 " = "a b".
Proof. reflexivity. Qed.
Example str_int_404 : Py.str_int 404 = "404".
Proof. reflexivity. Qed.

Example get_text_stripped :
  get_text nl true
    (decompose_all irrelevant_tags
       (Tag "body" ∅ [p_ "hi"; Tag "script" ∅ [Text NavigableString "evil()"]]))
  = "hi".
Proof. reflexivity. Qed.

Example urljoin_root_relative : Urllib.urljoin "https://site.test/page" "/x" = "https://site.test/x".
Proof. reflexivity. Qed.

Example urljoin_absolute : Urllib.urljoin "https://site.test/page" "https://y.test" = "https://y.test".
Proof. reflexivity. Qed.

Example urljoin_dot_segments :
  Urllib.urljoin "https://site.test/a/b/page?q#f" "../c/./d?x=1#top"
  = "https://site.test/a/c/d?x=1#top".
Proof. reflexivity. Qed.

Example connect_timeout_is_both :
  issubclass ConnectTimeout ConnectionError = true
  ∧ issubclass ConnectTimeout Timeout = true
  ∧ issubclass ReadTimeout ConnectionError = false.
Proof. by repeat split. Qed.

(** ** Strings *)

Lemma append_cons (c : ascii) (s t : string) : String c s +:+ t = String c (s +:+ t).
Proof. reflexivity. Qed.

Lemma take_length (n : nat) (s : string) :
  String.length (Py.take n s) = (n `min` String.length s)%nat.
Proof.
  revert s; induction n as [|n IH]; intros [|c s]; simpl; try reflexivity.
  by rewrite IH.
Qed.

Lemma take_prefix (n : nat) (s : string) : ∃ rest, s = Py.take n s +:+ rest.
Proof.
  revert s; induction n as [|n IH]; intros s.
  - exists s. by destruct s.
  - destruct s as [|c s]; [by exists ""|].
    destruct (IH s) as [rest Hrest]. exists rest.
    simpl. rewrite append_cons. by rewrite <- Hrest.
Qed.

Lemma take_all (n : nat) (s : string) :
  (String.length s ≤ n)%nat → Py.take n s = s.
Proof.
  revert s; induction n as [|n IH]; intros [|c s]; simpl; intros Hn;
    try reflexivity; try lia.
  rewrite IH; [done | lia].
Qed.

Lemma slice_to_bound (s : string) (n : Z) : 0 ≤ n → Py.len (Py.slice_to s n) ≤ n.
Proof.
  intros Hn. unfold Py.len, Py.slice_to.
  destruct (Z.leb_spec 0 n); [|lia]. rewrite take_length. lia.
Qed.

Lemma slice_to_exact (s : string) (n : Z) :
  0 ≤ n ≤ Py.len s → Py.len (Py.slice_to s n) = n.
Proof.
  unfold Py.len, Py.slice_to. intros Hn.
  destruct (Z.leb_spec 0 n); [|lia]. rewrite take_length. lia.
Qed.

Lemma slice_to_prefix (s : string) (n : Z) : ∃ rest, s = Py.slice_to s n +:+ rest.
Proof. unfold Py.slice_to. destruct (0 <=? n); apply take_prefix. Qed.

Lemma slice_to_short (s : string) (n : Z) : Py.len s ≤ n → Py.slice_to s n = s.
Proof.
  unfold Py.len, Py.slice_to. intros Hn.
  destruct (Z.leb_spec 0 n); [|lia]. apply take_all. lia.
Qed.

Lemma slice_to_negative (s : string) (n : Z) :
  n < 0 → Py.len (Py.slice_to s n) = Z.max 0 (Py.len s + n).
Proof.
  unfold Py.len, Py.slice_to. intros Hn.
  destruct (Z.leb_spec 0 n); [lia|]. rewrite take_length. lia.
Qed.

(** ** The document tree *)

Lemma descendants_Tag name attrs cs :
  descendants (Tag name attrs cs) = cs ≫= (λ c, c :: descendants c).
Proof.
  simpl. induction cs as [|c cs IH]; [done|]. by rewrite IH.
Qed.

Lemma decompose_all_Tag names name attrs cs :
  decompose_all names (Tag name attrs cs) =
  Tag name attrs (decompose_all names <$> filter (λ c, ¬ named names c) cs).
Proof.
  simpl. f_equal. induction cs as [|c cs IH]; [done|].
  destruct (named names c) eqn:Hc.
  - rewrite filter_cons_False; [done|]. intros H; apply H. by apply Is_true_true_2.
  - rewrite filter_cons_True; [|by apply Is_true_false_2]. by rewrite fmap_cons, IH.
Qed.

Lemma named_decompose_all names names' e :
  named names' (decompose_all names e) = named names' e.
Proof. by destruct e. Qed.

Lemma yielded_decompose_all names strip e :
  yielded strip (decompose_all names e) = yielded strip e.
Proof. by destruct e. Qed.

(** No tag of the removed kinds is left below a decomposed element. *)
Lemma decompose_all_clean names e :
  Forall (λ d, named names d = false) (descendants (decompose_all names e)).
Proof.
  induction e as [cls s|name attrs cs IH] using PageElement_tree_ind; [constructor|].
  rewrite decompose_all_Tag, descendants_Tag.
  apply Forall_bind, Forall_fmap, Forall_forall.
  intros c [Hc Hin]%list_elem_of_filter. simpl.
  rewrite Forall_forall in IH. constructor; [|by apply IH].
  rewrite named_decompose_all. by apply Is_true_false_1.
Qed.

Lemma find_all_decompose_all names e : find_all names (decompose_all names e) = [].
Proof.
  unfold find_all. pose proof (decompose_all_clean names e) as H.
  induction H as [|d l Hd _ IH]; [done|].
  rewrite filter_cons_False; [done|]. by apply Is_true_false_2.
Qed.

Lemma descendants_decompose_all names e d' :
  d' ∈ descendants (decompose_all names e) ↔
  ∃ d, kept names e d ∧ d' = decompose_all names d.
Proof.
  revert d'. induction e as [cls s|name attrs cs IH] using PageElement_tree_ind; intros d'.
  - split; [by intros ?%elem_of_nil|]. intros (d & Hd & _). inversion Hd.
  - rewrite decompose_all_Tag, descendants_Tag, list_elem_of_bind.
    rewrite Forall_forall in IH. split.
    + intros (c' & Hd' & (c & -> & [Hc Hin]%list_elem_of_filter)%list_elem_of_fmap).
      assert (named names c = false) as Hn by by apply Is_true_false_1.
      apply elem_of_cons in Hd' as [->|Hd'].
      * exists c. split; [by apply kept_child|done].
      * apply IH in Hd' as (d & Hd & ->); [|done].
        exists d. split; [by eapply kept_below|done].
    + intros (d & Hd & ->). inversion Hd as [? ? ? c Hin Hn|? ? ? c d0 Hin Hn Hk]; subst.
      * exists (decompose_all names d). split; [by left|].
        apply list_elem_of_fmap. exists d. split; [done|].
        apply list_elem_of_filter. split; [by apply Is_true_false_2|done].
      * exists (decompose_all names c). split.
        -- right. apply IH; [done|]. by exists d.
        -- apply list_elem_of_fmap. exists c. split; [done|].
           apply list_elem_of_filter. split; [by apply Is_true_false_2|done].
Qed.

(** The strings that survive: those of the elements that are kept. *)
Lemma all_strings_decompose_all names strip e s :
  s ∈ all_strings strip (decompose_all names e) ↔
  ∃ d, kept names e d ∧ yielded strip d = Some s.
Proof.
  unfold all_strings. rewrite list_elem_of_omap. split.
  - intros (d' & (d & Hd & ->)%descendants_decompose_all & Hy).
    exists d. by rewrite yielded_decompose_all in Hy.
  - intros (d & Hd & Hy). exists (decompose_all names d). split.
    + apply descendants_decompose_all. by exists d.
    + by rewrite yielded_decompose_all.
Qed.

(** With [strip=True] the strings are those without it, each stripped,
    less the ones that stripping leaves empty. *)
Lemma all_strings_strip e :
  all_strings true e = filter (λ s, Py.truthy s) (Py.strip <$> all_strings false e).
Proof.
  unfold all_strings. induction (descendants e) as [|d l IH]; [done|].
  destruct d as [cls s|]; [|exact IH].
  cbn [omap list_omap yielded]. destruct (interesting cls); [|exact IH].
  cbn zeta. rewrite fmap_cons. destruct (Py.truthy (Py.strip s)) eqn:Hs.
  - rewrite filter_cons_True; [|by apply Is_true_true_2]. f_equal. exact IH.
  - rewrite filter_cons_False; [exact IH|]. by apply Is_true_false_2.
Qed.

Lemma find_all_named names e d : d ∈ find_all names e → named names d = true.
Proof.
  unfold find_all. intros [Hd _]%list_elem_of_filter. by apply Is_true_true_1.
Qed.

Lemma find_Tag name e t : find name e = Some t → ∃ attrs cs, t = Tag name attrs cs.
Proof.
  unfold find. intros Hh%head_Some_elem_of%find_all_named.
  destruct t as [|n attrs cs]; [done|]. simpl in Hh.
  apply bool_decide_eq_true, list_elem_of_singleton in Hh as ->. eauto.
Qed.

(** The body copy: a document around a tag gives the text of the tag. *)
Lemma get_text_document names sep strip name attrs cs :
  named names (Tag name attrs cs) = false →
  get_text sep strip (decompose_all names (document [Tag name attrs cs])) =
  get_text sep strip (decompose_all names (Tag name attrs cs)).
Proof.
  intros Hn. unfold get_text, all_strings, document. f_equal.
  rewrite (decompose_all_Tag _ "[document]").
  rewrite filter_cons_True, filter_nil; [|by apply Is_true_false_2].
  rewrite descendants_Tag. simpl. by rewrite app_nil_r.
Qed.

(** The strings [get_text] joins, read off the text nodes: those of class
    [NavigableString] or [CData]; with [strip=True] each is stripped and
    the empty ones are dropped. *)
Lemma all_strings_text_nodes e :
  all_strings false e
  = snd <$> filter (λ t, t.1 = NavigableString ∨ t.1 = CData) (text_nodes e).
Proof.
  unfold all_strings, text_nodes. induction (descendants e) as [|d l IH]; [done|].
  destruct d as [cls s|]; [|exact IH]. cbn [omap list_omap].
  destruct cls; cbn [yielded interesting].
  - rewrite filter_cons_True; [|by left]. by rewrite fmap_cons, <- IH.
  - rewrite filter_cons_True; [|by right]. by rewrite fmap_cons, <- IH.
  - rewrite filter_cons_False; [exact IH|]. by intros [|].
  - rewrite filter_cons_False; [exact IH|]. by intros [|].
Qed.

Lemma yielded_true d s :
  yielded true d = Some s ↔
  ∃ cls t, d = Text cls t ∧ (cls = NavigableString ∨ cls = CData)
           ∧ s = Py.strip t ∧ s ≠ "".
Proof.
  split.
  - destruct d as [cls t|]; [|done]. simpl.
    destruct (interesting cls) eqn:Hcls; [|done].
    destruct (Py.truthy (Py.strip t)) eqn:Ht; [|done]. intros [= <-].
    exists cls, t. split; [done|]. split; [by destruct cls; eauto|].
    split; [done|]. by destruct (Py.strip t).
  - intros (cls & t & -> & Hcls & -> & Hne). simpl.
    assert (interesting cls = true) as -> by (by destruct Hcls as [->| ->]).
    by destruct (Py.strip t).
Qed.

(** ** Running the module *)

Ltac run :=
  unfold fetch_website_contents, fetch_website_links, __init__, _fetch,
    get_contents, get_links, try_except, get_url, raise_for_status, add_str,
    io, self, set_soup, print, lift_outcome, raise,
    mbind, mret, Eff_bind, Eff_ret.

Lemma fetch_website_contents_fetched w p url doc :
  fetched w p url doc →
  fetch_website_contents w url p =
  match title_of doc with
  | Some title =>
      (Return (Py.slice_to ((title +:+ (nl +:+ nl)) +:+ body_text doc) 2000),
       requested url p)
  | None =>
      (Return ("[Error: Unexpected error for " +:+ url +:+ "]"),
       printed ("Unexpected Error: " +:+ url +:+ " - "
                +:+ Py.slice_to (exc_str TypeError_None_plus_str) 200)
               (requested url p))
  end.
Proof.
  intros (r & Hr & Hs & Hdoc). run. rewrite Hr, Hs, Hdoc. unfold body_text.
  by destruct (title_of doc).
Qed.

(** The handler a failed request runs in [fetch_website_contents]. *)
Lemma fetch_website_contents_failed w p url e :
  fetch_fails w p url e →
  fetch_website_contents w url p =
  if isinstance e ConnectionError then
    (Return ("[Error: Could not connect to " +:+ url +:+ "]"),
     printed ("Connection Error: Could not connect to " +:+ url) (requested url p))
  else if isinstance e Timeout then
    (Return ("[Error: Timeout for " +:+ url +:+ "]"),
     printed ("Timeout Error: " +:+ url +:+ " took too long to respond") (requested url p))
  else if isinstance e HTTPError then
    match exc_response e with
    | Some r =>
        (Return ("[Error: HTTP " +:+ Py.str_int (status_code r) +:+ " for " +:+ url +:+ "]"),
         printed ("HTTP Error " +:+ Py.str_int (status_code r) +:+ ": " +:+ url)
                 (requested url p))
    | None => (Raise AttributeError_status_code, requested url p)
    end
  else if isinstance e RequestException then
    (Return ("[Error: Could not fetch " +:+ url +:+ "]"),
     printed ("Request Error: " +:+ url +:+ " - " +:+ Py.slice_to (exc_str e) 200)
             (requested url p))
  else if isinstance e Exception then
    (Return ("[Error: Unexpected error for " +:+ url +:+ "]"),
     printed ("Unexpected Error: " +:+ url +:+ " - " +:+ Py.slice_to (exc_str e) 200)
             (requested url p))
  else (Raise e, requested url p).
Proof.
  intros [e' Hr|r Hr Hs]; run; rewrite Hr; [|rewrite Hs]; simpl.
  - destruct (isinstance e' ConnectionError); [done|].
    destruct (isinstance e' Timeout); [done|].
    destruct (isinstance e' HTTPError); [by destruct (exc_response e')|].
    destruct (isinstance e' RequestException); [done|].
    by destruct (isinstance e' Exception).
  - reflexivity.
Qed.

Lemma hrefs_cons link rest :
  hrefs (link :: rest) =
  match get "href" link with
  | Some href => if Py.truthy href then href :: hrefs rest else hrefs rest
  | None => hrefs rest
  end.
Proof.
  unfold hrefs. cbn [omap list_omap]. destruct (get "href" link) as [href|]; [|done].
  destruct (Py.truthy href) eqn:Hh.
  - by rewrite filter_cons_True; [|apply Is_true_true_2].
  - by rewrite filter_cons_False; [|apply Is_true_false_2].
Qed.

Lemma collect_links_resolved w {St} base anchors links out (st : St) :
  Forall2 (λ href absolute_url, urljoin w base href = Return absolute_url)
          (hrefs anchors) out →
  collect_links w base anchors links st = (Return (links ++ out), st).
Proof.
  revert links out. induction anchors as [|link rest IH]; intros links out Hout.
  - apply Forall2_nil_inv_l in Hout as ->. by rewrite app_nil_r.
  - rewrite hrefs_cons in Hout. simpl.
    destruct (get "href" link) as [href|]; [|by apply IH].
    destruct (Py.truthy href); [|by apply IH].
    apply Forall2_cons_inv_l in Hout as (u & out' & Hu & Hout' & ->).
    unfold mbind, Eff_bind, lift_outcome. rewrite Hu.
    rewrite (IH _ _ Hout'). by rewrite <- app_assoc.
Qed.

(** The loop neither reads nor changes the state it runs on. *)
Lemma collect_links_pure w base anchors links :
  ∃ o : outcome (list string),
    ∀ St (st : St), collect_links w base anchors links st = (o, st).
Proof.
  revert links. induction anchors as [|link rest IH]; intros links.
  - by exists (Return links).
  - simpl. destruct (get "href" link) as [href|]; [|apply IH].
    destruct (Py.truthy href); [|apply IH].
    unfold mbind, Eff_bind, lift_outcome.
    destruct (urljoin w base href) as [u|e]; [apply IH|by exists (Raise e)].
Qed.

Lemma get_links_pure w this :
  ∃ o : outcome (list string), ∀ p, get_links w (this, p) = (o, (this, p)).
Proof.
  run. simpl. destruct (soup this) as [doc|]; [|by exists (Return [])].
  destruct (collect_links_pure w (url this) (find_all ["a"] doc) []) as [o Ho].
  exists o. intros p. apply Ho.
Qed.

Lemma get_contents_pure w max_length this :
  ∃ o : outcome string, ∀ p, get_contents w max_length (this, p) = (o, (this, p)).
Proof.
  run. simpl. destruct (soup this) as [doc|]; [|by eexists].
  destruct (find "body" doc) as [body|].
  - destruct (BeautifulSoup w (str_tag w body)) as [copy|e]; [|by eexists].
    destruct (title_of doc); by eexists.
  - destruct (title_of doc); by eexists.
Qed.

Lemma get_contents_present w max_length u doc p :
  faithful_copy w doc →
  get_contents w max_length ({| url := u; soup := Some doc |}, p) =
  (match title_of doc with
   | Some title =>
       Return (Py.slice_to ((title +:+ (nl +:+ nl)) +:+ body_text doc) max_length)
   | None => Raise TypeError_None_plus_str
   end, ({| url := u; soup := Some doc |}, p)).
Proof.
  intros Hcopy. run. simpl. unfold body_text.
  destruct (find "body" doc) as [body|] eqn:Hbody.
  - rewrite (Hcopy body Hbody).
    destruct (find_Tag _ _ _ Hbody) as (attrs & cs & ->).
    rewrite get_text_document; [|done]. by destruct (title_of doc).
  - by destruct (title_of doc).
Qed.



Lemma fetch_website_links_fetched w p url doc out :
  fetched w p url doc →
  Forall2 (λ href absolute_url, urljoin w url href = Return absolute_url)
          (hrefs (find_all ["a"] doc)) out →
  fetch_website_links w url p = (Return out, requested url p).
Proof.
  intros (r & Hr & Hs & Hdoc) Hout. run. rewrite Hr, Hs, Hdoc.
  by rewrite (collect_links_resolved _ _ _ _ out).
Qed.

Lemma isinstance_Exception e :
  isinstance e RequestException = true → isinstance e Exception = true.
Proof. unfold isinstance. by destruct (exc_class e). Qed.


Lemma init_fetched w p u doc :
  fetched w p u doc →
  __init__ w u p = (Return {| url := u; soup := Some doc |}, requested u p).
Proof. intros (r & Hr & Hs & Hdoc). run. simpl. by rewrite Hr, Hs, Hdoc. Qed.

Lemma init_failed w p u e :
  fetch_fails w p u e →
  isinstance e RequestException = true →
  __init__ w u p =
  (Return {| url := u; soup := None |},
   printed ("Error fetching " +:+ u +:+ ": " +:+ Py.slice_to (exc_str e) 100)
           (requested u p)).
Proof.
  intros [e' Hr|r Hr Hs] He; run; simpl; rewrite Hr; [|rewrite Hs]; simpl.
  - by rewrite He.
  - reflexivity.
Qed.

(** ** Facts the statements below share *)

Lemma title_of_None doc :
  title_of doc = None ↔ ∃ title, find "title" doc = Some title ∧ dot_string title = None.
Proof.
  unfold title_of. destruct (find "title" doc) as [title|]; split.
  - intros H. by exists title.
  - by intros (? & [= <-] & H).
  - done.
  - by intros (? & [=] & _).
Qed.

(** What [get_contents] returns for a parsed document is a slice. *)
Lemma get_contents_returned w max_length u doc p r :
  (get_contents w max_length ({| url := u; soup := Some doc |}, p)).1 = Return r →
  ∃ full, r = Py.slice_to full max_length.
Proof.
  run. simpl. destruct (find "body" doc) as [body|].
  - destruct (BeautifulSoup w (str_tag w body)) as [copy|e]; [|done].
    destruct (title_of doc); [|done]. simpl. intros [= <-]. eauto.
  - destruct (title_of doc); [|done]. simpl. intros [= <-]. eauto.
Qed.

Lemma sentinels_differ (u : string) :
  "[Error: Timeout for " +:+ u +:+ "]" ≠ "[Error: Could not connect to " +:+ u +:+ "]".
Proof. intros H. by repeat (injection H as _ H). Qed.

(** Whenever the title has no single string, the module-level function
    reports an unexpected error and the method raises. *)
Lemma contents_of_title_without_string w p u doc title :
  find "title" doc = Some title → dot_string title = None →
  (fetched w p u doc →
     (fetch_website_contents w u p).1
     = Return ("[Error: Unexpected error for " +:+ u +:+ "]"))
  ∧ (faithful_copy w doc → ∀ max_length,
       (get_contents w max_length ({| url := u; soup := Some doc |}, p)).1
       = Raise TypeError_None_plus_str).
Proof.
  intros Hfind Hstring.
  assert (title_of doc = None) as Htitle by (apply title_of_None; eauto).
  split.
  - intros Hdoc. by rewrite (fetch_website_contents_fetched _ _ _ _ Hdoc), Htitle.
  - intros Hcopy max_length. by rewrite (get_contents_present _ _ _ _ _ Hcopy), Htitle.
Qed.

Lemma collect_links_raises w {St} base anchors links (st : St) e st' :
  collect_links w base anchors links st = (Raise e, st') →
  ∃ href, urljoin w base href = Raise e.
Proof.
  revert links. induction anchors as [|link rest IH]; intros links; simpl; [done|].
  destruct (get "href" link) as [href|]; [|apply IH].
  destruct (Py.truthy href); [|apply IH].
  unfold mbind, Eff_bind, lift_outcome.
  destruct (urljoin w base href) as [absolute_url|e'] eqn:Hjoin; [apply IH|].
  intros [= <- _]. eauto.
Qed.

(** The module-level functions always return: their last clause catches
    every [Exception]. *)
Lemma module_functions_never_raise w p u :
  raises_well w →
  (∃ s p', fetch_website_contents w u p = (Return s, p'))
  ∧ (∃ l p', fetch_website_links w u p = (Return l, p')).
Proof.
  intros (Hget & Hsoup & Hjoin). split.
  - run. destruct (requests_get w _ u headers 10) as [r|e] eqn:Hr.
    + destruct (is_error_status (status_code r)).
      * simpl. eauto.
      * simpl. destruct (BeautifulSoup w (content r)) as [doc|e] eqn:Hdoc.
        -- destruct (title_of doc); simpl; eauto.
        -- destruct (Hsoup _ _ Hdoc) as [He Hresp]. simpl.
           destruct (isinstance e ConnectionError); [eauto|].
           destruct (isinstance e Timeout); [eauto|].
           destruct (isinstance e HTTPError).
           { destruct (Hresp eq_refl) as [r' ->]. eauto. }
           destruct (isinstance e RequestException); [eauto|]. rewrite He. eauto.
    + destruct (Hget _ _ _ _ _ Hr) as [He Hresp]. simpl.
      destruct (isinstance e ConnectionError); [eauto|].
      destruct (isinstance e Timeout); [eauto|].
      destruct (isinstance e HTTPError).
      { destruct (Hresp eq_refl) as [r' ->]. eauto. }
      destruct (isinstance e RequestException); [eauto|]. rewrite He. eauto.
  - run. destruct (requests_get w _ u headers 10) as [r|e] eqn:Hr.
    + destruct (is_error_status (status_code r)).
      * simpl. eauto.
      * simpl. destruct (BeautifulSoup w (content r)) as [doc|e] eqn:Hdoc.
        -- destruct (collect_links w u (find_all ["a"] doc) [] (requested u p))
             as [[l|e] p'] eqn:Hl; [eauto|].
           apply collect_links_raises in Hl as [href Hhref].
           destruct (Hjoin _ _ _ Hhref) as [He _]. simpl.
           destruct (isinstance e RequestException); [eauto|]. rewrite He. eauto.
        -- destruct (Hsoup _ _ Hdoc) as [He _]. simpl.
           destruct (isinstance e RequestException); [eauto|]. rewrite He. eauto.
    + destruct (Hget _ _ _ _ _ Hr) as [He _]. simpl.
      destruct (isinstance e RequestException); [eauto|]. rewrite He. eauto.
Qed.

(** ** The example pages, served *)

Ltac served := eexists; repeat split; reflexivity.

Ltac concrete_copy :=
  let body := fresh "body" in
  let H := fresh "H" in
  intros body H; vm_compute in H; injection H as <-; vm_compute; reflexivity.

Lemma fetched_greeting : fetched (serving 200 site greeting) start site greeting.
Proof. served. Qed.

Lemma faithful_copy_greeting : faithful_copy (serving 200 site greeting) greeting.
Proof. concrete_copy. Qed.

Lemma fetched_three_anchors :
  fetched (serving 200 site three_anchors) start site three_anchors.
Proof. served. Qed.

Lemma fetched_mixed : fetched (serving 200 site mixed) start site mixed.
Proof. served. Qed.

Lemma faithful_copy_mixed : faithful_copy (serving 200 site mixed) mixed.
Proof. concrete_copy. Qed.

Lemma fetched_spaced : fetched (serving 200 site spaced) start site spaced.
Proof. served. Qed.

Lemma faithful_copy_spaced : faithful_copy (serving 200 site spaced) spaced.
Proof. concrete_copy. Qed.

Lemma fetched_hi_and_script :
  fetched (serving 200 site hi_and_script) start site hi_and_script.
Proof. served. Qed.

Lemma faithful_copy_hi_and_script :
  faithful_copy (serving 200 site hi_and_script) hi_and_script.
Proof. concrete_copy. Qed.

(** Had the tags been decomposed in the parsed document itself, as
    [fetch_website_contents] does in the document it alone holds, an anchor
    below one of them would be gone for [find_all]. *)
Remark decompose_in_place_loses_anchors :
  let body := Tag "body" ∅ [Tag "style" ∅ [a (Some "/x") "x"]] in
  find_all ["a"] body = [a (Some "/x") "x"]
  ∧ find_all ["a"] (decompose_all irrelevant_tags body) = [].
Proof. split; reflexivity. Qed.

(** A page the parser rejects: the constructor lets the exception through,
    the module-level functions do not. *)
Remark constructor_raises_on_parser_error :
  let w := world [(site, Return (page 200 site greeting))]
                 [(render greeting, Raise rejected)] in
  __init__ w site start = (Raise rejected, requested site start)
  ∧ (fetch_website_contents w site start).1
    = Return "[Error: Unexpected error for https://site.test/page]"
  ∧ (fetch_website_links w site start).1 = Return [].
Proof. split; [|split]; vm_compute; reflexivity. Qed.

(** ** Extraction order *)

(** Claim C1.  On one [WebsiteFetcher] instance, [get_contents] followed by
    [get_links] gives the same two results as [get_links] followed by
    [get_contents]: neither method changes the instance or the process, so
    the parsed document that [get_links] reads after [get_contents] is the
    one that was fetched, and its links are those of all its anchors. *)
Theorem extraction_order_irrelevant (w : World) (this : WebsiteFetcher)
    (p : process) (max_length : Z) :
  let contents_first := get_contents w max_length (this, p) in
  let links_second := get_links w contents_first.2 in
  let links_first := get_links w (this, p) in
  let contents_second := get_contents w max_length links_first.2 in
  contents_first.1 = contents_second.1
  ∧ links_second.1 = links_first.1
  ∧ contents_first.2 = (this, p)
  ∧ links_second.2 = (this, p)
  ∧ contents_second.2 = (this, p)
  ∧ ∀ doc, soup this = Some doc →
      links_second.1 = (collect_links w (url this) (find_all ["a"] doc) [] p).1.
Proof.
  destruct (get_contents_pure w max_length this) as [c Hc].
  destruct (get_links_pure w this) as [l Hl].
  cbv zeta. rewrite !Hc, !Hl. cbn [fst snd]. rewrite ?Hc, ?Hl. cbn [fst snd].
  repeat split. intros doc Hdoc.
  destruct (collect_links_pure w (url this) (find_all ["a"] doc) []) as [o Ho].
  rewrite (Ho process p). specialize (Hl p). revert Hl.
  unfold get_links, self, mbind, Eff_bind. cbn [fst snd]. rewrite Hdoc, Ho.
  by intros [= ->].
Qed.

(** ** Truncation *)

(** With [max_length = -1] the slice drops the last character and is longer
    than [max_length]. *)
Lemma negative_max_length_exceeded :
  let w := serving 200 site greeting in
  let this := {| url := site; soup := Some greeting |} in
  __init__ w site start = (Return this, requested site start)
  ∧ (get_contents w (-1) (this, requested site start)).1
    = Return ("T" +:+ nl +:+ nl +:+ "hell")
  ∧ ¬ (Py.len ("T" +:+ nl +:+ nl +:+ "hell") ≤ -1).
Proof. split; [|split]; [vm_compute; reflexivity..|]. vm_compute. by intros H. Qed.

(** Claim C2, amended.  For a document whose title is absent or has a
    single string, the content is the prefix cut of title, two newlines and
    body text: at 2000 characters in [fetch_website_contents], at
    [max_length] in [get_contents].  For [max_length >= 0] its length is at
    most [max_length], exactly [max_length] when the full string is that
    long, and the full string is returned as it is when it is not longer;
    for a negative [max_length] the cut drops the last [-max_length]
    characters.  Whatever [get_contents] returns for a parsed document is
    such a slice. *)
Theorem contents_truncated (w : World) (p : process) (u : string)
    (doc : PageElement) (title : string) (max_length : Z) :
  title_of doc = Some title →
  let full := (title +:+ (nl +:+ nl)) +:+ body_text doc in
  let this := {| url := u; soup := Some doc |} in
  (fetched w p u doc →
     let r := Py.slice_to full 2000 in
     (fetch_website_contents w u p).1 = Return r
     ∧ Py.len r ≤ 2000
     ∧ (∃ rest, full = r +:+ rest)
     ∧ (Py.len full ≤ 2000 → r = full)
     ∧ (2000 ≤ Py.len full → Py.len r = 2000))
  ∧ (faithful_copy w doc →
     let r := Py.slice_to full max_length in
     (get_contents w max_length (this, p)).1 = Return r
     ∧ (∃ rest, full = r +:+ rest)
     ∧ (0 ≤ max_length → Py.len r ≤ max_length)
     ∧ (Py.len full ≤ max_length → r = full)
     ∧ (0 ≤ max_length ≤ Py.len full → Py.len r = max_length)
     ∧ (max_length < 0 → Py.len r = Z.max 0 (Py.len full + max_length)))
  ∧ (∀ r, (get_contents w max_length (this, p)).1 = Return r →
          0 ≤ max_length → Py.len r ≤ max_length).
Proof.
  intros Htitle full this. split; [|split].
  - intros Hdoc r. rewrite (fetch_website_contents_fetched _ _ _ _ Hdoc), Htitle.
    split; [done|]. split; [by apply slice_to_bound|].
    split; [apply slice_to_prefix|]. split; [apply slice_to_short|].
    intros Hlen. apply slice_to_exact. lia.
  - intros Hcopy r. unfold this.
    rewrite (get_contents_present _ _ _ _ _ Hcopy), Htitle.
    split; [done|]. split; [apply slice_to_prefix|].
    split; [apply slice_to_bound|]. split; [apply slice_to_short|].
    split; [apply slice_to_exact|apply slice_to_negative].
  - intros r [full' ->]%get_contents_returned Hm. by apply slice_to_bound.
Qed.

Lemma contents_truncated_witness :
  let w := serving 200 site greeting in
  title_of greeting = Some "T"
  ∧ fetched w start site greeting
  ∧ faithful_copy w greeting
  ∧ (fetch_website_contents w site start).1 = Return ("T" +:+ nl +:+ nl +:+ "hello")
  ∧ (get_contents w 4 ({| url := site; soup := Some greeting |}, start)).1
    = Return ("T" +:+ nl +:+ nl +:+ "h").
Proof.
  split; [reflexivity|]. split; [exact fetched_greeting|].
  split; [exact faithful_copy_greeting|].
  destruct (contents_truncated (serving 200 site greeting) start site greeting "T" 4
              eq_refl) as (Hfetch & Hget & _).
  split.
  - exact (proj1 (Hfetch fetched_greeting)).
  - exact (proj1 (Hget faithful_copy_greeting)).
Defined.

(** ** Links *)

(** Claim C3.  Link extraction returns, in document order, the result of
    joining the base URL with each href that is present and not empty,
    one entry per such anchor and nothing for the others, whenever
    [urljoin] returns for these hrefs; so for a document whose anchors
    are, in order, one with href "/x", one with href "https://y.test" and
    one without href (or with an empty one), where joining gives
    "https://site.test/x" and "https://y.test", it returns exactly
    these two, for [get_links] and for [fetch_website_links]. *)
Theorem links_resolved_in_order (w : World) (p : process) (u : string)
    (doc : PageElement) :
  let this := {| url := u; soup := Some doc |} in
  (∀ out,
     Forall2 (λ href absolute_url, urljoin w u href = Return absolute_url)
       (filter (λ href, Py.truthy href) (omap (get "href") (find_all ["a"] doc))) out →
     get_links w (this, p) = (Return out, (this, p))
     ∧ (fetched w p u doc → (fetch_website_links w u p).1 = Return out))
  ∧ (∀ a1 a2 a3,
       find_all ["a"] doc = [a1; a2; a3] →
       get "href" a1 = Some "/x" → get "href" a2 = Some "https://y.test" →
       get "href" a3 = None ∨ get "href" a3 = Some "" →
       urljoin w u "/x" = Return "https://site.test/x" →
       urljoin w u "https://y.test" = Return "https://y.test" →
       get_links w (this, p)
       = (Return ["https://site.test/x"; "https://y.test"], (this, p))
       ∧ (fetched w p u doc →
          (fetch_website_links w u p).1
          = Return ["https://site.test/x"; "https://y.test"])).
Proof.
  intros this.
  assert (∀ out,
     Forall2 (λ href absolute_url, urljoin w u href = Return absolute_url)
       (hrefs (find_all ["a"] doc)) out →
     get_links w (this, p) = (Return out, (this, p))
     ∧ (fetched w p u doc → (fetch_website_links w u p).1 = Return out)) as Hgeneral.
  { intros out Hout. split.
    - unfold get_links, self, mbind, Eff_bind, this. cbn [fst snd soup url].
      by rewrite (collect_links_resolved _ _ _ _ out).
    - intros Hdoc. by rewrite (fetch_website_links_fetched _ _ _ _ out Hdoc Hout). }
  split; [exact Hgeneral|].
  intros a1 a2 a3 Hall H1 H2 H3 Hx Hy. apply Hgeneral.
  rewrite Hall, !hrefs_cons, H1, H2. cbn [Py.truthy].
  change (hrefs []) with (@nil string).
  destruct H3 as [->| ->]; cbn [Py.truthy]; by repeat constructor.
Qed.

Lemma links_resolved_in_order_witness :
  let w := serving 200 site three_anchors in
  let this := {| url := site; soup := Some three_anchors |} in
  find_all ["a"] three_anchors
  = [a (Some "/x") "x"; a (Some "https://y.test") "y"; a None "z"]
  ∧ fetched w start site three_anchors
  ∧ get_links w (this, start)
    = (Return ["https://site.test/x"; "https://y.test"], (this, start))
  ∧ (fetch_website_links w site start).1
    = Return ["https://site.test/x"; "https://y.test"].
Proof.
  split; [reflexivity|]. split; [exact fetched_three_anchors|].
  destruct (proj2 (links_resolved_in_order (serving 200 site three_anchors) start site
                     three_anchors)
              (a (Some "/x") "x") (a (Some "https://y.test") "y") (a None "z")
              eq_refl eq_refl eq_refl (or_introl eq_refl) eq_refl eq_refl)
    as [Hlinks Hfetch].
  split; [exact Hlinks | exact (Hfetch fetched_three_anchors)].
Defined.

(** ** Exceptions that leave the module *)

(** Claim C4, at the failing input: a page with an empty title tag.  The
    constructor returns the instance, [get_contents] raises the
    [TypeError] of [None + str] to its caller, and [fetch_website_contents]
    on the same page catches it and returns its sentinel. *)
Theorem get_contents_raises_on_empty_title :
  let w := serving 200 site untitled in
  let this := {| url := site; soup := Some untitled |} in
  __init__ w site start = (Return this, requested site start)
  ∧ get_contents w 2000 (this, requested site start)
    = (Raise TypeError_None_plus_str, (this, requested site start))
  ∧ (fetch_website_contents w site start).1
    = Return "[Error: Unexpected error for https://site.test/page]".
Proof. split; [|split]; vm_compute; reflexivity. Qed.

(** ** Timeouts *)

(** A connect timeout is a [Timeout] and is reported as a connection
    failure. *)
Lemma connect_timeout_reported_as_connection_failure :
  let u := "https://slow.test/" in
  let w := world [(u, Raise connect_timeout)] [] in
  requests_get w 0 u headers 10 = Raise connect_timeout
  ∧ isinstance connect_timeout Timeout = true
  ∧ (fetch_website_contents w u start).1
    = Return "[Error: Could not connect to https://slow.test/]"
  ∧ (fetch_website_contents w u start).1
    ≠ Return "[Error: Timeout for https://slow.test/]".
Proof.
  split; [reflexivity|]. split; [reflexivity|]. split; [vm_compute; reflexivity|].
  vm_compute. by intros H.
Qed.

(** Claim C5, amended.  When the request raises a [Timeout] that is not
    also a [ConnectionError] (a read timeout), [fetch_website_contents]
    returns "[Error: Timeout for <url>]", which is not the sentinel of a
    connection failure; a [Timeout] that is also a [ConnectionError] (a
    connect timeout) is caught by the earlier clause and returns
    "[Error: Could not connect to <url>]". *)
Theorem timeout_classification (w : World) (p : process) (u : string) (e : exception) :
  requests_get w (length (requests_log p)) u headers 10 = Raise e →
  isinstance e Timeout = true →
  (isinstance e ConnectionError = false →
     (fetch_website_contents w u p).1 = Return ("[Error: Timeout for " +:+ u +:+ "]"))
  ∧ (isinstance e ConnectionError = true →
     (fetch_website_contents w u p).1
     = Return ("[Error: Could not connect to " +:+ u +:+ "]"))
  ∧ "[Error: Timeout for " +:+ u +:+ "]" ≠ "[Error: Could not connect to " +:+ u +:+ "]".
Proof.
  intros Hr Ht.
  rewrite (fetch_website_contents_failed _ _ _ _ (request_raises _ _ _ _ Hr)), Ht.
  split; [by intros ->|]. split; [by intros ->|]. apply sentinels_differ.
Qed.

Lemma timeout_classification_witness :
  let u := "https://slow.test/" in
  let w := world [(u, Raise read_timeout)] [] in
  requests_get w 0 u headers 10 = Raise read_timeout
  ∧ isinstance read_timeout Timeout = true
  ∧ isinstance read_timeout ConnectionError = false
  ∧ (fetch_website_contents w u start).1 = Return "[Error: Timeout for https://slow.test/]".
Proof.
  split; [reflexivity|]. split; [reflexivity|]. split; [reflexivity|].
  exact (proj1 (timeout_classification
                  (world [("https://slow.test/", Raise read_timeout)] []) start
                  "https://slow.test/" read_timeout eq_refl eq_refl) eq_refl).
Defined.

(** ** HTTP status *)

(** A response with status 300 is not 2xx and is no error: its page is
    extracted. *)
Lemma multiple_choices_is_not_an_error :
  let w := serving 300 site greeting in
  requests_get w 0 site headers 10 = Return (page 300 site greeting)
  ∧ ¬ (200 ≤ status_code (page 300 site greeting) < 300)
  ∧ (fetch_website_contents w site start).1 = Return ("T" +:+ nl +:+ nl +:+ "hello")
  ∧ (fetch_website_contents w site start).1
    ≠ Return "[Error: HTTP 300 for https://site.test/page]".
Proof.
  split; [reflexivity|]. split; [cbn; lia|].
  split; [vm_compute; reflexivity|]. vm_compute. by intros H.
Qed.

(** Claim C6, amended.  When the request completes with a status from 400
    to 599, the fetch fails with an [HTTPError] that carries the response
    and its status, and [fetch_website_contents] returns
    "[Error: HTTP <status> for <url>]" with that status in decimal.  When
    it completes with any other status, the fetch does not fail: the body
    is parsed, and for a body that parses [fetch_website_contents] returns
    what it returns for that page under a 2xx status, its content, or its
    sentinel for a title without a single string. *)
Theorem http_error_status_reported (w : World) (p : process) (u : string) (r : Response) :
  requests_get w (length (requests_log p)) u headers 10 = Return r →
  (400 ≤ status_code r < 600 →
     fetch_fails w p u (HTTPError_of r)
     ∧ isinstance (HTTPError_of r) HTTPError = true
     ∧ status_code <$> exc_response (HTTPError_of r) = Some (status_code r)
     ∧ (fetch_website_contents w u p).1
       = Return ("[Error: HTTP " +:+ Py.str_int (status_code r) +:+ " for " +:+ u +:+ "]"))
  ∧ (status_code r < 400 ∨ 600 ≤ status_code r →
     (∀ e, ¬ fetch_fails w p u e)
     ∧ ∀ doc, BeautifulSoup w (content r) = Return doc →
         (fetch_website_contents w u p).1
         = match title_of doc with
           | Some title =>
               Return (Py.slice_to ((title +:+ (nl +:+ nl)) +:+
                         match find "body" doc with
                         | Some body =>
                             get_text nl true (decompose_all irrelevant_tags body)
                         | None => ""
                         end) 2000)
           | None => Return ("[Error: Unexpected error for " +:+ u +:+ "]")
           end).
Proof.
  intros Hr. split.
  - intros Hs.
    assert (fetch_fails w p u (HTTPError_of r)) as Hfail.
    { apply status_raises; [done|]. unfold is_error_status. apply andb_true_intro. lia. }
    split; [done|]. split; [done|]. split; [done|].
    by rewrite (fetch_website_contents_failed _ _ _ _ Hfail).
  - intros Hs.
    assert (is_error_status (status_code r) = false) as Hok.
    { unfold is_error_status. apply andb_false_iff. lia. }
    split.
    + intros e [e' He'|r' Hr' Hs']; [congruence|].
      rewrite Hr in Hr'. injection Hr' as <-. congruence.
    + intros doc Hdoc.
      assert (fetched w p u doc) as Hfetched by (by exists r).
      rewrite (fetch_website_contents_fetched _ _ _ _ Hfetched).
      by destruct (title_of doc).
Qed.

Lemma http_error_status_reported_witness :
  let w := serving 404 site greeting in
  requests_get w 0 site headers 10 = Return (page 404 site greeting)
  ∧ (fetch_website_contents w site start).1
    = Return "[Error: HTTP 404 for https://site.test/page]"
  ∧ (fetch_website_contents (serving 500 site greeting) site start).1
    = Return "[Error: HTTP 500 for https://site.test/page]"
  ∧ (fetch_website_contents (serving 999 site greeting) site start).1
    = Return ("T" +:+ nl +:+ nl +:+ "hello").
Proof.
  split; [reflexivity|]. split; [|split].
  - refine (proj2 (proj2 (proj2 (proj1 (http_error_status_reported
              (serving 404 site greeting) start site (page 404 site greeting)
              eq_refl) _)))). cbn. lia.
  - refine (proj2 (proj2 (proj2 (proj1 (http_error_status_reported
              (serving 500 site greeting) start site (page 500 site greeting)
              eq_refl) _)))). cbn. lia.
  - refine (proj2 (proj2 (http_error_status_reported
              (serving 999 site greeting) start site (page 999 site greeting)
              eq_refl) _) greeting eq_refl). cbn. lia.
Defined.

(** ** Failed fetches *)



(** ** Title and body text *)

(** A text node of blanks only is dropped, not joined in as an empty line. *)
Lemma whitespace_only_text_is_dropped :
  let w := serving 200 site spaced in
  fetched w start site spaced
  ∧ (fetch_website_contents w site start).1
    = Return ("No title found" +:+ nl +:+ nl +:+ "a" +:+ nl +:+ "b")
  ∧ "No title found" +:+ nl +:+ nl +:+ body_text_as_worded spaced
    = "No title found" +:+ nl +:+ nl +:+ "a" +:+ nl +:+ nl +:+ "b"
  ∧ (fetch_website_contents w site start).1
    ≠ Return (Py.slice_to ("No title found" +:+ nl +:+ nl +:+ body_text_as_worded spaced)
                2000).
Proof.
  split; [exact fetched_spaced|].
  split; [vm_compute; reflexivity|]. split; [vm_compute; reflexivity|].
  vm_compute. by intros H.
Qed.

(** A comment and the strings of an rt and a template tag are left out of
    the body text; a CDATA string is in it. *)
Remark only_text_classes_are_joined :
  text_nodes <$> find "body" annotated
  = Some [(NavigableString, "K"); (Comment, "c"); (OtherString, "kan");
          (OtherString, "hello"); (CData, "x")]
  ∧ body_text annotated = "K" +:+ nl +:+ "x".
Proof. split; reflexivity. Qed.

(** Claim C8, amended.  For a document whose title is absent or has a
    single string, the title is "No title found" when there is no title
    tag and the string of the first title tag otherwise; the body text is
    empty when there is no body tag and otherwise the strings of class
    NavigableString or CData left in the body after the decomposition
    (not comments, nor strings of another class), in document order, each
    stripped, those that are empty after stripping dropped, joined by one
    newline; and the content is title, two newlines and body text, cut at
    2000 characters by [fetch_website_contents] and at [max_length] by
    [get_contents]. *)
Theorem contents_layout (w : World) (p : process) (u : string)
    (doc : PageElement) (title : string) :
  title_of doc = Some title →
  (find "title" doc = None → title = "No title found")
  ∧ (∀ t, find "title" doc = Some t → dot_string t = Some title)
  ∧ (find "body" doc = None → body_text doc = "")
  ∧ (∀ body, find "body" doc = Some body →
       body_text doc
       = Py.join nl
           (filter (λ s, s ≠ "")
              (Py.strip <$>
                 (snd <$> filter (λ t, t.1 = NavigableString ∨ t.1 = CData)
                            (text_nodes (decompose_all irrelevant_tags body))))))
  ∧ (fetched w p u doc →
       (fetch_website_contents w u p).1
       = Return (Py.slice_to ((title +:+ (nl +:+ nl)) +:+ body_text doc) 2000))
  ∧ (faithful_copy w doc → ∀ max_length,
       (get_contents w max_length ({| url := u; soup := Some doc |}, p)).1
       = Return (Py.slice_to ((title +:+ (nl +:+ nl)) +:+ body_text doc) max_length)).
Proof.
  intros Htitle. split; [|split; [|split; [|split; [|split]]]].
  - intros Hnone. unfold title_of in Htitle. rewrite Hnone in Htitle. by simplify_eq.
  - intros t Ht. unfold title_of in Htitle. by rewrite Ht in Htitle.
  - intros Hnone. unfold body_text. by rewrite Hnone.
  - intros body Hbody. unfold body_text, get_text.
    rewrite Hbody, all_strings_strip, all_strings_text_nodes. f_equal.
    apply list_filter_iff. intros s. by destruct s.
  - intros Hdoc. by rewrite (fetch_website_contents_fetched _ _ _ _ Hdoc), Htitle.
  - intros Hcopy max_length. by rewrite (get_contents_present _ _ _ _ _ Hcopy), Htitle.
Qed.

Lemma contents_layout_witness :
  let w := serving 200 site spaced in
  title_of spaced = Some "No title found"
  ∧ (fetch_website_contents w site start).1
    = Return ("No title found" +:+ nl +:+ nl +:+ "a" +:+ nl +:+ "b")
  ∧ (get_contents w 2000 ({| url := site; soup := Some spaced |}, start)).1
    = Return ("No title found" +:+ nl +:+ nl +:+ "a" +:+ nl +:+ "b").
Proof.
  split; [reflexivity|].
  destruct (contents_layout (serving 200 site spaced) start site spaced "No title found"
              eq_refl) as (_ & _ & _ & _ & Hfetch & Hget).
  split; [exact (Hfetch fetched_spaced) | exact (Hget faithful_copy_spaced 2000)].
Defined.

(** The title is read from the first title tag of the document, before
    and apart from the decomposition: a script inside a title in the body
    is removed from the body text and still gives the title. *)
Lemma script_in_title_reaches_the_output :
  let w := serving 200 site title_in_body in
  let script := Tag "script" ∅ [Text NavigableString "evil()"] in
  fetched w start site title_in_body
  ∧ find "body" title_in_body = Some (Tag "body" ∅ [title_ [script]; p_ "hi"])
  ∧ find_all irrelevant_tags (Tag "body" ∅ [title_ [script]; p_ "hi"]) = [script]
  ∧ (fetch_website_contents w site start).1
    = Return ("evil()" +:+ nl +:+ nl +:+ "hi")
  ∧ (get_contents w 2000 ({| url := site; soup := Some title_in_body |}, start)).1
    = Return ("evil()" +:+ nl +:+ nl +:+ "hi").
Proof.
  split; [served|]. split; [reflexivity|]. split; [reflexivity|].
  split; vm_compute; reflexivity.
Qed.

(** Claim C9, amended.  In a document with a body, no script, style, img
    or input tag is left below the body once the loop has decomposed
    them, and the strings of the body text are exactly the stripped,
    non-empty strings of class NavigableString or CData that lie in the
    body under none of these tags; that text is what both extractors put
    after the title (when the title has no single string, the one returns
    its sentinel and the other raises).  For a body that holds a
    paragraph "hi" and a script "evil()", the body text is "hi". *)
Theorem irrelevant_tags_leave_no_text (w : World) (p : process) (u : string)
    (doc body : PageElement) :
  find "body" doc = Some body →
  let cleaned := decompose_all irrelevant_tags body in
  find_all ["script"; "style"; "img"; "input"] cleaned = []
  ∧ (∀ s, s ∈ all_strings true cleaned ↔
          ∃ cls t, kept ["script"; "style"; "img"; "input"] body (Text cls t)
                   ∧ (cls = NavigableString ∨ cls = CData)
                   ∧ s = Py.strip t ∧ s ≠ "")
  ∧ (fetched w p u doc →
       (fetch_website_contents w u p).1
       = match title_of doc with
         | Some title =>
             Return (Py.slice_to ((title +:+ (nl +:+ nl)) +:+
                       Py.join nl (all_strings true cleaned)) 2000)
         | None => Return ("[Error: Unexpected error for " +:+ u +:+ "]")
         end)
  ∧ (faithful_copy w doc → ∀ max_length,
       (get_contents w max_length ({| url := u; soup := Some doc |}, p)).1
       = match title_of doc with
         | Some title =>
             Return (Py.slice_to ((title +:+ (nl +:+ nl)) +:+
                       Py.join nl (all_strings true cleaned)) max_length)
         | None => Raise TypeError_None_plus_str
         end)
  ∧ (contents_of body = [p_ "hi"; Tag "script" ∅ [Text NavigableString "evil()"]] →
     Py.join nl (all_strings true cleaned) = "hi").
Proof.
  intros Hbody cleaned.
  assert (body_text doc = Py.join nl (all_strings true cleaned)) as Htext
    by (unfold body_text, get_text; by rewrite Hbody).
  split; [apply find_all_decompose_all|]. split.
  { intros s. unfold cleaned. rewrite all_strings_decompose_all. split.
    - intros (d & Hd & (cls & t & -> & Hrest)%yielded_true). by exists cls, t.
    - intros (cls & t & Hd & Hrest). exists (Text cls t). split; [done|].
      apply yielded_true. by exists cls, t. }
  split; [|split].
  - intros Hdoc. rewrite (fetch_website_contents_fetched _ _ _ _ Hdoc), Htext.
    by destruct (title_of doc).
  - intros Hcopy max_length. rewrite (get_contents_present _ _ _ _ _ Hcopy), Htext.
    by destruct (title_of doc).
  - destruct (find_Tag _ _ _ Hbody) as (attrs & cs & ->). subst cleaned.
    cbn [contents_of]. by intros ->.
Qed.

Lemma irrelevant_tags_leave_no_text_witness :
  let w := serving 200 site hi_and_script in
  let body := Tag "body" ∅ [p_ "hi"; Tag "script" ∅ [Text NavigableString "evil()"]] in
  find "body" hi_and_script = Some body
  ∧ Py.join nl (all_strings true (decompose_all irrelevant_tags body)) = "hi"
  ∧ (fetch_website_contents w site start).1
    = Return ("No title found" +:+ nl +:+ nl +:+ "hi")
  ∧ (get_contents w 2000 ({| url := site; soup := Some hi_and_script |}, start)).1
    = Return ("No title found" +:+ nl +:+ nl +:+ "hi").
Proof.
  split; [reflexivity|].
  destruct (irrelevant_tags_leave_no_text (serving 200 site hi_and_script) start site
              hi_and_script
              (Tag "body" ∅ [p_ "hi"; Tag "script" ∅ [Text NavigableString "evil()"]])
              eq_refl)
    as (_ & _ & Hfetch & Hget & Hexample).
  split; [exact (Hexample eq_refl)|].
  split; [exact (Hfetch fetched_hi_and_script) | exact (Hget faithful_copy_hi_and_script 2000)].
Defined.

(** Claim C10.  There is a page, fetched without error, whose title tag
    holds the string "a" and the tag b: its [.string] is [None],
    [fetch_website_contents] returns "[Error: Unexpected error for <url>]"
    and no content, and [get_contents] on the instance built from the same
    page raises the [TypeError] of [None + str]. *)
Theorem title_without_single_string :
  ∃ (w : World) (u : string) (doc title : PageElement),
    fetched w start u doc
    ∧ find "title" doc = Some title
    ∧ title = Tag "title" ∅ [Text NavigableString "a"; Tag "b" ∅ [Text NavigableString "c"]]
    ∧ dot_string title = None
    ∧ (fetch_website_contents w u start).1
      = Return ("[Error: Unexpected error for " +:+ u +:+ "]")
    ∧ ∃ this p,
        __init__ w u start = (Return this, p)
        ∧ soup this = Some doc
        ∧ ∀ max_length,
            get_contents w max_length (this, p) = (Raise TypeError_None_plus_str, (this, p)).
Proof.
  exists (serving 200 site mixed), site, mixed, mixed_title.
  assert (title_of mixed = None) as Htitle by reflexivity.
  split; [exact fetched_mixed|]. split; [reflexivity|]. split; [reflexivity|].
  split; [reflexivity|]. split.
  - by rewrite (fetch_website_contents_fetched _ _ _ _ fetched_mixed), Htitle.
  - exists {| url := site; soup := Some mixed |}, (requested site start).
    split; [exact (init_fetched _ _ _ _ fetched_mixed)|].
    split; [reflexivity|]. intros max_length.
    by rewrite (get_contents_present _ _ _ _ _ faithful_copy_mixed), Htitle.
Qed.

(** * Further properties of the module *)

(** ** The effects of one call *)

Lemma append_nil_r (s : string) : s +:+ "" = s.
Proof. induction s as [|c s IH]; [done|]. by rewrite append_cons, IH. Qed.

Lemma append_assoc (s t v : string) : (s +:+ t) +:+ v = s +:+ t +:+ v.
Proof. induction s as [|c s IH]; [done|]. by rewrite !append_cons, IH. Qed.

Lemma mentions_inside pre u post : mentions u (pre +:+ u +:+ post).
Proof. by exists pre, post. Qed.

Lemma mentions_last pre u : mentions u (pre +:+ u).
Proof. exists pre, "". by rewrite append_nil_r. Qed.

Lemma mentions_last3 a b c u : mentions u (a +:+ b +:+ c +:+ u).
Proof. exists (a +:+ b +:+ c), "". by rewrite append_nil_r, !append_assoc. Qed.

Ltac handler_cases e :=
  simpl;
  repeat match goal with
         | |- context [isinstance e ?c] => destruct (isinstance e c) eqn:?
         end;
  try destruct (exc_response e); simpl.

Ltac effect :=
  first
    [ by left
    | right; eexists; split; [|reflexivity];
      first [apply mentions_inside | apply mentions_last | apply mentions_last3] ].

Lemma contents_effect w u p : one_request u p (fetch_website_contents w u p).2.
Proof.
  unfold one_request. run. destruct (requests_get w _ u headers 10) as [r|e].
  - destruct (is_error_status (status_code r)); simpl; [effect|].
    destruct (BeautifulSoup w (content r)) as [doc|e].
    + destruct (title_of doc); simpl; effect.
    + handler_cases e; effect.
  - handler_cases e; effect.
Qed.

Lemma collect_links_state w {St} base anchors links (st : St) :
  (collect_links w base anchors links st).2 = st.
Proof.
  destruct (collect_links_pure w base anchors links) as [o Ho]. by rewrite Ho.
Qed.

Lemma links_effect w u p : one_request u p (fetch_website_links w u p).2.
Proof.
  unfold one_request. run. destruct (requests_get w _ u headers 10) as [r|e].
  - destruct (is_error_status (status_code r)); simpl; [effect|].
    destruct (BeautifulSoup w (content r)) as [doc|e].
    + pose proof (collect_links_state w u (find_all ["a"] doc) [] (requested u p)) as Hst.
      destruct (collect_links w u (find_all ["a"] doc) [] (requested u p)) as [[l|e] q];
        simpl in Hst; subst q; [effect|].
      handler_cases e; effect.
    + handler_cases e; effect.
  - handler_cases e; effect.
Qed.

Lemma init_effect w u p : one_request u p (__init__ w u p).2.
Proof.
  unfold one_request. run. simpl. destruct (requests_get w _ u headers 10) as [r|e].
  - destruct (is_error_status (status_code r)); simpl; [effect|].
    destruct (BeautifulSoup w (content r)) as [doc|e]; simpl; [effect|].
    handler_cases e; effect.
  - handler_cases e; effect.
Qed.

(** Property X1.  Whatever the collaborators answer, each entry point
    ([fetch_website_contents], [fetch_website_links], the constructor of
    [WebsiteFetcher]) makes exactly one request, for its URL: there is no
    retry and no second fetch.  [get_contents] and [get_links] make
    none. *)
Theorem one_request_per_call (w : World) (p : process) (u : string) :
  requests_log (fetch_website_contents w u p).2 = requests_log p ++ [u]
  ∧ requests_log (fetch_website_links w u p).2 = requests_log p ++ [u]
  ∧ requests_log (__init__ w u p).2 = requests_log p ++ [u]
  ∧ ∀ this max_length,
      requests_log (get_contents w max_length (this, p)).2.2 = requests_log p
      ∧ requests_log (get_links w (this, p)).2.2 = requests_log p.
Proof.
  split; [|split; [|split]].
  - by destruct (contents_effect w u p) as [->|(line & _ & ->)].
  - by destruct (links_effect w u p) as [->|(line & _ & ->)].
  - by destruct (init_effect w u p) as [->|(line & _ & ->)].
  - intros this max_length.
    destruct (get_contents_pure w max_length this) as [c Hc].
    destruct (get_links_pure w this) as [l Hl]. by rewrite Hc, Hl.
Qed.




(** An exception that is no [Exception] matches no clause of the module. *)
Lemma not_Exception_unhandled e :
  isinstance e Exception = false →
  isinstance e ConnectionError = false ∧ isinstance e Timeout = false
  ∧ isinstance e HTTPError = false ∧ isinstance e RequestException = false.
Proof. unfold isinstance. by destruct (exc_class e). Qed.

(** Property X4.  An exception raised by the request that is no instance
    of [Exception], such as [KeyboardInterrupt], is caught by no clause:
    the three entry points raise it to their caller, after the request
    and without printing. *)
Theorem non_Exception_propagates (w : World) (p : process) (u : string) (e : exception) :
  requests_get w (length (requests_log p)) u headers 10 = Raise e →
  isinstance e Exception = false →
  fetch_website_contents w u p = (Raise e, requested u p)
  ∧ fetch_website_links w u p = (Raise e, requested u p)
  ∧ __init__ w u p = (Raise e, requested u p).
Proof.
  intros Hr He. destruct (not_Exception_unhandled e He) as (Hc & Ht & Hh & Hq).
  split; [|split]; run; simpl; rewrite Hr; simpl; by rewrite ?Hc, ?Ht, ?Hh, ?Hq, ?He.
Qed.

Lemma non_Exception_propagates_witness :
  let w := world [(site, Raise keyboard_interrupt)] [] in
  isinstance keyboard_interrupt Exception = false
  ∧ fetch_website_contents w site start = (Raise keyboard_interrupt, requested site start)
  ∧ fetch_website_links w site start = (Raise keyboard_interrupt, requested site start)
  ∧ __init__ w site start = (Raise keyboard_interrupt, requested site start).
Proof.
  split; [reflexivity|].
  exact (non_Exception_propagates (world [(site, Raise keyboard_interrupt)] []) start site
           keyboard_interrupt eq_refl eq_refl).
Defined.

(** Property X5.  A failure of [requests] that is neither a connection
    error, nor a timeout, nor an HTTP error (too many redirects, an invalid
    URL) makes [fetch_website_contents] return
    "[Error: Could not fetch <url>]".  Any other [Exception], raised by the
    request or by the parser, makes it return
    "[Error: Unexpected error for <url>]" and [fetch_website_links] return
    the empty list, while the constructor of [WebsiteFetcher] raises it. *)
Theorem other_failures_classified (w : World) (p : process) (u : string) (e : exception) :
  (fetch_fails w p u e →
   isinstance e RequestException = true →
   isinstance e ConnectionError = false → isinstance e Timeout = false →
   isinstance e HTTPError = false →
   (fetch_website_contents w u p).1 = Return ("[Error: Could not fetch " +:+ u +:+ "]"))
  ∧ (fetch_fails w p u e ∨ parser_raises w p u e →
     isinstance e Exception = true →
     isinstance e RequestException = false →
     (fetch_website_contents w u p).1
     = Return ("[Error: Unexpected error for " +:+ u +:+ "]")
     ∧ (fetch_website_links w u p).1 = Return []
     ∧ __init__ w u p = (Raise e, requested u p)).
Proof.
  split.
  - intros Hfail Hq Hc Ht Hh.
    by rewrite (fetch_website_contents_failed _ _ _ _ Hfail), Hc, Ht, Hh, Hq.
  - intros Hraised He Hq.
    assert (isinstance e ConnectionError = false ∧ isinstance e Timeout = false
            ∧ isinstance e HTTPError = false) as (Hc & Ht & Hh).
    { revert Hq. unfold isinstance. by destruct (exc_class e). }
    destruct Hraised as [Hfail|(r & Hr & Hs & Hdoc)].
    + revert He Hq Hc Ht Hh. destruct Hfail as [e' Hr|r Hr Hs]; intros He Hq Hc Ht Hh; [|done].
      split; [|split]; run; simpl; rewrite Hr; simpl; by rewrite ?Hc, ?Ht, ?Hh, ?Hq, ?He.
    + split; [|split]; run; simpl; rewrite Hr, Hs; simpl; rewrite Hdoc; simpl;
        by rewrite ?Hc, ?Ht, ?Hh, ?Hq, ?He.
Qed.

Lemma other_failures_classified_witness :
  let w := world [(site, Raise too_many_redirects)] [] in
  let w' := world [(site, Return (page 200 site greeting))]
                  [(render greeting, Raise rejected)] in
  fetch_fails w start site too_many_redirects
  ∧ (fetch_website_contents w site start).1
    = Return "[Error: Could not fetch https://site.test/page]"
  ∧ parser_raises w' start site rejected
  ∧ (fetch_website_contents w' site start).1
    = Return "[Error: Unexpected error for https://site.test/page]"
  ∧ (fetch_website_links w' site start).1 = Return []
  ∧ __init__ w' site start = (Raise rejected, requested site start).
Proof.
  assert (fetch_fails (world [(site, Raise too_many_redirects)] []) start site
            too_many_redirects) as Hfail by (by constructor).
  assert (parser_raises (world [(site, Return (page 200 site greeting))]
                           [(render greeting, Raise rejected)]) start site rejected)
    as Hparse by (eexists; repeat split; reflexivity).
  split; [exact Hfail|].
  split; [exact (proj1 (other_failures_classified _ _ _ _) Hfail
                   eq_refl eq_refl eq_refl eq_refl)|].
  split; [exact Hparse|].
  exact (proj2 (other_failures_classified _ _ _ _) (or_intror Hparse) eq_refl eq_refl).
Defined.

(** Property X6.  The constructor of [WebsiteFetcher] ends in one of
    three ways: the page is fetched and parsed, and the instance holds its
    document, nothing printed; or the request, the status check or the
    parser raises a [RequestException], and the instance holds no
    document, one line printed; or one of them raises another exception,
    which the constructor raises to its caller. *)
Theorem constructor_outcomes (w : World) (p : process) (u : string) :
  (∃ doc, fetched w p u doc
          ∧ __init__ w u p = (Return {| url := u; soup := Some doc |}, requested u p))
  ∨ (∃ e, isinstance e RequestException = true
          ∧ (fetch_fails w p u e ∨ parser_raises w p u e)
          ∧ __init__ w u p
            = (Return {| url := u; soup := None |},
               printed ("Error fetching " +:+ u +:+ ": " +:+ Py.slice_to (exc_str e) 100)
                       (requested u p)))
  ∨ (∃ e, isinstance e RequestException = false
          ∧ (fetch_fails w p u e ∨ parser_raises w p u e)
          ∧ __init__ w u p = (Raise e, requested u p)).
Proof.
  destruct (requests_get w (length (requests_log p)) u headers 10) as [r|e] eqn:Hr.
  - destruct (is_error_status (status_code r)) eqn:Hs.
    + right; left. exists (HTTPError_of r).
      assert (fetch_fails w p u (HTTPError_of r)) as Hfail by by apply status_raises.
      split; [done|]. split; [by left|]. by apply init_failed.
    + destruct (BeautifulSoup w (content r)) as [doc|e] eqn:Hdoc.
      * left. exists doc. assert (fetched w p u doc) as Hf by (by exists r).
        split; [done|]. by apply init_fetched.
      * assert (parser_raises w p u e) as Hp by (by exists r).
        destruct (isinstance e RequestException) eqn:He; [right; left|right; right];
          exists e; (split; [done|]); (split; [by right|]);
          run; simpl; rewrite Hr, Hs; simpl; rewrite Hdoc; simpl; by rewrite He.
  - assert (fetch_fails w p u e) as Hfail by by apply request_raises.
    destruct (isinstance e RequestException) eqn:He; [right; left|right; right];
      exists e; (split; [done|]); (split; [by left|]).
    + by apply init_failed.
    + run. simpl. rewrite Hr. simpl. by rewrite He.
Qed.

(** What [fetch_website_links] does once the page is there. *)
Lemma fetch_website_links_collected w p u doc :
  fetched w p u doc →
  (fetch_website_links w u p).1
  = match (collect_links w u (find_all ["a"] doc) [] p).1 with
    | Return links => Return links
    | Raise e =>
        if isinstance e RequestException || isinstance e Exception then Return []
        else Raise e
    end.
Proof.
  intros (r & Hr & Hs & Hdoc).
  destruct (collect_links_pure w u (find_all ["a"] doc) []) as [o Ho].
  run. rewrite Hr, Hs, Hdoc, !Ho. cbn [fst]. destruct o as [links|e]; [done|]. simpl.
  destruct (isinstance e RequestException); [done|].
  by destruct (isinstance e Exception).
Qed.

(** Property X7.  For a page that is fetched and parsed, the
    constructor returns the instance that holds it, and the methods give
    what the module-level functions give from the same process:
    [get_contents(2000)] returns the string of [fetch_website_contents]
    when the title is absent or has a single string and the body round
    trips through its markup, and whatever list [get_links] returns,
    [fetch_website_links] returns too. *)
Theorem fetcher_agrees_with_functions (w : World) (p : process) (u : string)
    (doc : PageElement) :
  fetched w p u doc →
  let this := {| url := u; soup := Some doc |} in
  __init__ w u p = (Return this, requested u p)
  ∧ (faithful_copy w doc → is_Some (title_of doc) →
     (get_contents w 2000 (this, requested u p)).1 = (fetch_website_contents w u p).1)
  ∧ (∀ out, (get_links w (this, requested u p)).1 = Return out →
            (fetch_website_links w u p).1 = Return out).
Proof.
  intros Hdoc this. split; [by apply init_fetched|]. split.
  - intros Hcopy [title Htitle]. unfold this.
    by rewrite (get_contents_present _ _ _ _ _ Hcopy),
         (fetch_website_contents_fetched _ _ _ _ Hdoc), Htitle.
  - intros out. rewrite (fetch_website_links_collected _ _ _ _ Hdoc).
    destruct (collect_links_pure w u (find_all ["a"] doc) []) as [o Ho].
    unfold get_links, self, mbind, Eff_bind, this. cbn [fst snd soup url].
    rewrite !Ho. cbn [fst]. by intros ->.
Qed.

Lemma faithful_copy_three_anchors :
  faithful_copy (serving 200 site three_anchors) three_anchors.
Proof. concrete_copy. Qed.

Lemma fetcher_agrees_with_functions_witness :
  let w := serving 200 site three_anchors in
  let this := {| url := site; soup := Some three_anchors |} in
  fetched w start site three_anchors
  ∧ __init__ w site start = (Return this, requested site start)
  ∧ (get_contents w 2000 (this, requested site start)).1
    = (fetch_website_contents w site start).1
  ∧ (fetch_website_links w site start).1
    = Return ["https://site.test/x"; "https://y.test"].
Proof.
  split; [exact fetched_three_anchors|].
  destruct (fetcher_agrees_with_functions (serving 200 site three_anchors) start site
              three_anchors fetched_three_anchors) as (Hinit & Hcontents & Hlinks).
  split; [exact Hinit|].
  split; [exact (Hcontents faithful_copy_three_anchors (mk_is_Some _ _ eq_refl))|].
  exact (Hlinks _ eq_refl).
Defined.

(** ** Cutting twice *)

Lemma take_take_string (n m : nat) (s : string) :
  Py.take n (Py.take m s) = Py.take (n `min` m) s.
Proof.
  revert m s. induction n as [|n IH]; intros [|m] [|c s]; simpl; try done.
  by rewrite IH.
Qed.

Lemma slice_to_slice_to (s : string) (m m' : Z) :
  0 ≤ m ≤ m' → Py.slice_to (Py.slice_to s m') m = Py.slice_to s m.
Proof.
  intros Hm. unfold Py.slice_to.
  destruct (Z.leb_spec 0 m); [|lia]. destruct (Z.leb_spec 0 m'); [|lia].
  rewrite take_take_string. f_equal. lia.
Qed.

(** Property X8.  On an instance that holds a document, if
    [get_contents(m')] returns a string then, for every [0 <= m <= m'],
    [get_contents(m)] returns its first [m] characters: a shorter cut is
    the cut of a longer one. *)
Theorem shorter_cut_of_longer (w : World) (p : process) (u : string) (doc : PageElement)
    (m m' : Z) (r' : string) :
  0 ≤ m ≤ m' →
  let this := {| url := u; soup := Some doc |} in
  (get_contents w m' (this, p)).1 = Return r' →
  (get_contents w m (this, p)).1 = Return (Py.slice_to r' m).
Proof.
  intros Hm this. unfold this. run. simpl. destruct (find "body" doc) as [body|].
  - destruct (BeautifulSoup w (str_tag w body)) as [copy|e]; [|done].
    destruct (title_of doc); [|done]. simpl. intros [= <-].
    by rewrite slice_to_slice_to.
  - destruct (title_of doc); [|done]. simpl. intros [= <-].
    by rewrite slice_to_slice_to.
Qed.

Lemma shorter_cut_of_longer_witness :
  let w := serving 200 site greeting in
  let this := {| url := site; soup := Some greeting |} in
  (get_contents w 7 (this, start)).1 = Return ("T" +:+ nl +:+ nl +:+ "hell")
  ∧ (get_contents w 4 (this, start)).1 = Return ("T" +:+ nl +:+ nl +:+ "h").
Proof.
  split; [vm_compute; reflexivity|].
  refine (shorter_cut_of_longer (serving 200 site greeting) start site greeting 4 7
            ("T" +:+ nl +:+ nl +:+ "hell") _ _); [lia|vm_compute; reflexivity].
Defined.

(** ** Stripped text *)

Lemma lstrip_length (s : string) : (String.length (Py.lstrip s) ≤ String.length s)%nat.
Proof. induction s as [|c s IH]; simpl; [lia|]. destruct (Py.isspace c); simpl; lia. Qed.

Lemma lstrip_fixed c s : Py.lstrip (String c s) = String c s ↔ Py.isspace c = false.
Proof.
  simpl. destruct (Py.isspace c); [|done]. split; [|done].
  intros H. pose proof (lstrip_length s) as Hlen. rewrite H in Hlen. simpl in Hlen. lia.
Qed.

Lemma lstrip_idem (s : string) : Py.lstrip (Py.lstrip s) = Py.lstrip s.
Proof.
  induction s as [|c s IH]; [done|]. simpl. destruct (Py.isspace c) eqn:Hc; [done|].
  by apply lstrip_fixed.
Qed.

Lemma rstrip_cons c s :
  Py.rstrip (String c s)
  = if Py.truthy (Py.rstrip s) then String c (Py.rstrip s)
    else if Py.isspace c then "" else String c "".
Proof. simpl. by destruct (Py.rstrip s). Qed.

Lemma rstrip_idem (s : string) : Py.rstrip (Py.rstrip s) = Py.rstrip s.
Proof.
  induction s as [|c s IH]; [done|]. rewrite rstrip_cons.
  destruct (Py.truthy (Py.rstrip s)) eqn:Hs.
  - by rewrite rstrip_cons, IH, Hs.
  - destruct (Py.isspace c) eqn:Hc; [done|]. by rewrite rstrip_cons, Hc.
Qed.

Lemma lstrip_rstrip (s : string) :
  Py.lstrip s = s → Py.lstrip (Py.rstrip s) = Py.rstrip s.
Proof.
  destruct s as [|c s]; [done|]. intros Hc%lstrip_fixed. rewrite rstrip_cons.
  destruct (Py.truthy (Py.rstrip s)); [by apply lstrip_fixed|].
  rewrite Hc. by apply lstrip_fixed.
Qed.

Lemma strip_fixed_strip (s : string) :
  Py.truthy (Py.strip s) = true → strip_fixed (Py.strip s).
Proof.
  intros Hs. split; [done|]. unfold Py.strip. split.
  - apply lstrip_rstrip, lstrip_idem.
  - apply rstrip_idem.
Qed.

Lemma truthy_app_r (s t : string) : Py.truthy t = true → Py.truthy (s +:+ t) = true.
Proof. by destruct s, t. Qed.

Lemma rstrip_app (s t : string) :
  Py.truthy (Py.rstrip t) = true → Py.rstrip (s +:+ t) = s +:+ Py.rstrip t.
Proof.
  intros Ht. induction s as [|c s IH]; [done|].
  by rewrite append_cons, rstrip_cons, IH, truthy_app_r.
Qed.

Lemma strip_fixed_app (s t v : string) :
  strip_fixed s → strip_fixed v → strip_fixed (s +:+ t +:+ v).
Proof.
  intros (Hs & Hsl & _) (Hv & _ & Hvr). split; [|split].
  - by destruct s.
  - destruct s as [|c s]; [done|]. rewrite append_cons.
    apply lstrip_fixed in Hsl. by apply lstrip_fixed.
  - assert (Py.rstrip (t +:+ v) = t +:+ v) as Htv by (rewrite rstrip_app; by rewrite Hvr).
    rewrite rstrip_app; rewrite Htv; [done|by apply truthy_app_r].
Qed.

Lemma join_strip_fixed (sep : string) (pieces : list string) :
  Forall strip_fixed pieces → pieces ≠ [] → strip_fixed (Py.join sep pieces).
Proof.
  induction 1 as [|x l Hx Hl IH]; [done|]. intros _.
  destruct l as [|y l]; [done|].
  change (Py.join sep (x :: y :: l)) with (x +:+ sep +:+ Py.join sep (y :: l)).
  apply strip_fixed_app; [done|]. by apply IH.
Qed.

Lemma all_strings_strip_fixed (e : PageElement) : Forall strip_fixed (all_strings true e).
Proof.
  unfold all_strings. induction (descendants e) as [|d l IH]; [constructor|].
  cbn [omap list_omap]. destruct (yielded true d) as [s|] eqn:Hd; [|exact IH].
  constructor; [|exact IH]. destruct d as [cls t|]; [|done]. simpl in Hd.
  destruct (interesting cls); [|done].
  destruct (Py.truthy (Py.strip t)) eqn:Ht; [|done].
  injection Hd as <-. by apply strip_fixed_strip.
Qed.

(** A string that stripping leaves as it is, and that is not empty, begins
    and ends with a character that is no whitespace. *)
Lemma rstrip_fixed_last (s : string) :
  Py.truthy s = true → Py.rstrip s = s →
  ∃ front c, s = front +:+ String c "" ∧ Py.isspace c = false.
Proof.
  induction s as [|c s IH]; [done|]. intros _. rewrite rstrip_cons.
  destruct (Py.truthy (Py.rstrip s)) eqn:Hs.
  - intros [= Hfix]. rewrite Hfix in Hs.
    destruct (IH Hs Hfix) as (front & d & -> & Hd). by exists (String c front), d.
  - destruct (Py.isspace c) eqn:Hc; [done|]. intros [= <-]. by exists "", c.
Qed.

Lemma strip_fixed_tidy (s : string) : strip_fixed s → tidy s.
Proof.
  intros (Hs & Hl & Hr). split.
  - destruct s as [|c rest]; [done|]. exists c, rest. split; [done|].
    by apply lstrip_fixed in Hl.
  - by apply rstrip_fixed_last.
Qed.

(** Property X9.  The body text is empty or begins and ends with a
    character that is no whitespace, so stripping it changes nothing; and
    each of the strings it joins is not empty and begins and ends with such
    a character. *)
Theorem body_text_is_stripped (doc : PageElement) :
  (body_text doc = "" ∨ tidy (body_text doc))
  ∧ Py.strip (body_text doc) = body_text doc
  ∧ ∀ body, find "body" doc = Some body →
      Forall tidy (all_strings true (decompose_all irrelevant_tags body))
      ∧ body_text doc = Py.join nl (all_strings true (decompose_all irrelevant_tags body)).
Proof.
  assert (body_text doc = "" ∨ strip_fixed (body_text doc)) as Hcases.
  { unfold body_text, get_text. destruct (find "body" doc) as [body|]; [|by left].
    destruct (all_strings true (decompose_all irrelevant_tags body)) as [|x l] eqn:Hl;
      [by left|].
    right. apply join_strip_fixed; [|done]. rewrite <- Hl. apply all_strings_strip_fixed. }
  split; [|split].
  - destruct Hcases as [->|Hfixed]; [by left|right; by apply strip_fixed_tidy].
  - destruct Hcases as [->|(_ & Hl & Hr)]; [done|]. unfold Py.strip. by rewrite Hl.
  - intros body Hbody. split.
    + eapply Forall_impl; [apply all_strings_strip_fixed|]. apply strip_fixed_tidy.
    + unfold body_text, get_text. by rewrite Hbody.
Qed.

(** ** Decomposition only removes *)

Lemma text_nodes_Tag name attrs cs :
  text_nodes (Tag name attrs cs)
  = cs ≫= (λ c, text_nodes (document [c])).
Proof.
  unfold text_nodes, document. rewrite !descendants_Tag.
  induction cs as [|c cs IH]; [done|].
  cbn [mbind list_bind]. rewrite omap_app, IH. f_equal.
  rewrite descendants_Tag. cbn [mbind list_bind]. by rewrite !app_nil_r.
Qed.

Lemma text_nodes_single c :
  text_nodes (document [c])
  = match c with Text cls s => [(cls, s)] | Tag _ _ _ => [] end ++ text_nodes c.
Proof.
  unfold text_nodes, document. rewrite descendants_Tag. cbn [mbind list_bind].
  rewrite app_nil_r. cbn [omap list_omap]. by destruct c.
Qed.

Lemma find_all_Tag names name attrs cs :
  find_all names (Tag name attrs cs)
  = cs ≫= (λ c, (if named names c then [c] else []) ++ find_all names c).
Proof.
  unfold find_all. rewrite descendants_Tag.
  induction cs as [|c cs IH]; [done|].
  cbn [mbind list_bind]. rewrite filter_app. f_equal; [|exact IH].
  destruct (named names c) eqn:Hc.
  - by rewrite filter_cons_True; [|apply Is_true_true_2].
  - by rewrite filter_cons_False; [|apply Is_true_false_2].
Qed.

Lemma text_nodes_decompose_sublist names e :
  text_nodes (decompose_all names e) `sublist_of` text_nodes e.
Proof.
  induction e as [cls s|name attrs cs IH] using PageElement_tree_ind; [done|].
  rewrite decompose_all_Tag, !text_nodes_Tag.
  induction IH as [|c cs Hc _ IHcs]; [done|].
  cbn [mbind list_bind]. destruct (named names c) eqn:Hn.
  - rewrite filter_cons_False; [|intros H; apply H; by apply Is_true_true_2].
    by apply sublist_inserts_l.
  - rewrite filter_cons_True; [|by apply Is_true_false_2].
    rewrite fmap_cons. cbn [mbind list_bind]. rewrite !text_nodes_single.
    apply sublist_app; [|exact IHcs]. apply sublist_app; [|exact Hc].
    by destruct c.
Qed.

Lemma decompose_all_nothing names e : find_all names e = [] → decompose_all names e = e.
Proof.
  induction e as [cls s|name attrs cs IH] using PageElement_tree_ind; [done|].
  rewrite find_all_Tag, decompose_all_Tag. intros Hnone. f_equal.
  induction IH as [|c cs Hc _ IHcs]; [done|].
  cbn [mbind list_bind] in Hnone.
  apply app_eq_nil in Hnone as [[Hn Hbelow]%app_eq_nil Hrest].
  destruct (named names c) eqn:Hnamed; [done|].
  rewrite filter_cons_True; [|by apply Is_true_false_2].
  by rewrite fmap_cons, Hc, IHcs.
Qed.

(** Property X10.  The decomposition only removes: the strings left in
    the body are, with their classes and in their order, a sublist of the
    strings of the body; and a body without script, style, img and input
    tags is left as it is, its text being that of the body itself. *)
Theorem decomposition_only_removes (doc body : PageElement) :
  find "body" doc = Some body →
  text_nodes (decompose_all irrelevant_tags body) `sublist_of` text_nodes body
  ∧ (find_all ["script"; "style"; "img"; "input"] body = [] →
     decompose_all irrelevant_tags body = body
     ∧ body_text doc = get_text nl true body).
Proof.
  intros Hbody. split; [apply text_nodes_decompose_sublist|].
  intros Hnone. pose proof (decompose_all_nothing irrelevant_tags body Hnone) as Hsame.
  split; [done|]. unfold body_text. by rewrite Hbody, Hsame.
Qed.

Lemma decomposition_only_removes_witness :
  find "body" hi_and_script
  = Some (Tag "body" ∅ [p_ "hi"; Tag "script" ∅ [Text NavigableString "evil()"]])
  ∧ [(NavigableString, "hi")] `sublist_of` [(NavigableString, "hi"); (NavigableString, "evil()")].
Proof.
  split; [reflexivity|].
  exact (proj1 (decomposition_only_removes hi_and_script
                  (Tag "body" ∅ [p_ "hi"; Tag "script" ∅ [Text NavigableString "evil()"]])
                  eq_refl)).
Defined.

(** ** Links the resolver rejects *)

Lemma collect_links_rejected w {St} base anchors links pre href post resolved e (st : St) :
  hrefs anchors = pre ++ href :: post →
  Forall2 (λ h absolute_url, urljoin w base h = Return absolute_url) pre resolved →
  urljoin w base href = Raise e →
  collect_links w base anchors links st = (Raise e, st).
Proof.
  revert links pre resolved.
  induction anchors as [|link rest IH]; intros links pre resolved Hhrefs Hpre He.
  - by destruct pre.
  - rewrite hrefs_cons in Hhrefs. simpl.
    destruct (get "href" link) as [h|]; [|by eapply IH].
    destruct (Py.truthy h); [|by eapply IH].
    unfold mbind, Eff_bind, lift_outcome.
    destruct pre as [|h' pre]; simpl in Hhrefs; injection Hhrefs as -> Hrest.
    + by rewrite He.
    + apply Forall2_cons_inv_l in Hpre as (u' & resolved' & Hu' & Hpre' & ->).
      rewrite Hu'. by eapply IH.
Qed.

Lemma collect_links_returned w {St} base anchors links out (st st' : St) :
  collect_links w base anchors links st = (Return out, st') →
  ∃ resolved,
    out = links ++ resolved
    ∧ Forall2 (λ h absolute_url, urljoin w base h = Return absolute_url)
              (hrefs anchors) resolved.
Proof.
  revert links. induction anchors as [|link rest IH]; intros links.
  - intros [= <- _]. exists []. by rewrite app_nil_r.
  - rewrite hrefs_cons. simpl.
    destruct (get "href" link) as [h|]; [|apply IH].
    destruct (Py.truthy h); [|apply IH].
    unfold mbind, Eff_bind, lift_outcome.
    destruct (urljoin w base h) as [absolute_url|e] eqn:Hh; [|done].
    intros (resolved & -> & Hres)%IH. exists (absolute_url :: resolved).
    split; [by rewrite <- app_assoc|by constructor].
Qed.

(** Property X11.  When [urljoin] raises on one of the hrefs, after
    returning on those before it, [get_links] raises that exception to its
    caller, and [fetch_website_links] on the same page, if it is an
    [Exception], returns the empty list: the links resolved before it are
    lost. *)
Theorem links_when_urljoin_raises (w : World) (p : process) (u : string)
    (doc : PageElement) (pre post resolved : list string) (href : string) (e : exception) :
  filter (λ h, Py.truthy h) (omap (get "href") (find_all ["a"] doc)) = pre ++ href :: post →
  Forall2 (λ h absolute_url, urljoin w u h = Return absolute_url) pre resolved →
  urljoin w u href = Raise e →
  let this := {| url := u; soup := Some doc |} in
  get_links w (this, p) = (Raise e, (this, p))
  ∧ (fetched w p u doc → isinstance e Exception = true →
     (fetch_website_links w u p).1 = Return []).
Proof.
  intros Hhrefs Hpre He this. split.
  - unfold get_links, self, mbind, Eff_bind, this. cbn [fst snd soup url].
    by eapply collect_links_rejected.
  - intros Hdoc Hexc. rewrite (fetch_website_links_collected _ _ _ _ Hdoc).
    rewrite (collect_links_rejected _ _ _ _ _ _ _ _ _ _ Hhrefs Hpre He). cbn [fst].
    rewrite Hexc. by destruct (isinstance e RequestException).
Qed.

Lemma links_when_urljoin_raises_witness :
  let w := with_urljoin (serving 200 site bad_anchor) strict_urljoin in
  let this := {| url := site; soup := Some bad_anchor |} in
  fetched w start site bad_anchor
  ∧ get_links w (this, start) = (Raise invalid_ipv6, (this, start))
  ∧ (fetch_website_links w site start).1 = Return [].
Proof.
  assert (fetched (with_urljoin (serving 200 site bad_anchor) strict_urljoin) start site
            bad_anchor) as Hdoc by served.
  split; [exact Hdoc|].
  assert (Forall2 (λ h absolute_url,
                     urljoin (with_urljoin (serving 200 site bad_anchor) strict_urljoin)
                       site h = Return absolute_url)
            ["/x"] ["https://site.test/x"]) as Hpre by (by repeat constructor).
  destruct (links_when_urljoin_raises
              (with_urljoin (serving 200 site bad_anchor) strict_urljoin) start site
              bad_anchor ["/x"] ["/y"] ["https://site.test/x"] "http://[" invalid_ipv6
              eq_refl Hpre eq_refl)
    as [Hget Hfetch].
  split; [exact Hget | exact (Hfetch Hdoc eq_refl)].
Defined.

Lemma omap_length_le {A B} (f : A → option B) (l : list A) :
  (length (omap f l) ≤ length l)%nat.
Proof.
  induction l as [|x l IH]; [done|]. cbn [omap list_omap].
  destruct (f x); simpl; lia.
Qed.

(** Property X12.  A list that [get_links] returns, and a list that is
    not empty that [fetch_website_links] returns for a fetched page, is, in
    order, [urljoin] of each href that is present and not empty, and is no
    longer than the list of the anchors. *)
Theorem links_returned_are_resolved (w : World) (p : process) (u : string)
    (doc : PageElement) (out : list string) :
  let this := {| url := u; soup := Some doc |} in
  (get_links w (this, p)).1 = Return out
  ∨ (fetched w p u doc ∧ (fetch_website_links w u p).1 = Return out ∧ out ≠ []) →
  Forall2 (λ h absolute_url, urljoin w u h = Return absolute_url)
          (filter (λ h, Py.truthy h) (omap (get "href") (find_all ["a"] doc))) out
  ∧ (length out ≤ length (find_all ["a"] doc))%nat.
Proof.
  intros this Hout.
  assert ((collect_links w u (find_all ["a"] doc) [] p).1 = Return out) as Hcollect.
  { destruct Hout as [Hget|(Hdoc & Hfetch & Hne)].
    - revert Hget. unfold get_links, self, mbind, Eff_bind, this. cbn [fst snd soup url].
      destruct (collect_links_pure w u (find_all ["a"] doc) []) as [o Ho].
      by rewrite !Ho.
    - rewrite (fetch_website_links_collected _ _ _ _ Hdoc) in Hfetch.
      destruct (collect_links w u (find_all ["a"] doc) [] p).1 as [links|e]; [done|].
      destruct (isinstance e RequestException || isinstance e Exception); [|done].
      by injection Hfetch as <-. }
  destruct (collect_links w u (find_all ["a"] doc) [] p) as [o st'] eqn:Hrun.
  simpl in Hcollect. subst o.
  apply collect_links_returned in Hrun as (resolved & -> & Hres). simpl.
  split; [exact Hres|].
  rewrite <- (Forall2_length _ _ _ Hres).
  etrans; [apply length_filter|]. apply omap_length_le.
Qed.

Lemma links_returned_are_resolved_witness :
  let w := serving 200 site three_anchors in
  let this := {| url := site; soup := Some three_anchors |} in
  (get_links w (this, start)).1 = Return ["https://site.test/x"; "https://y.test"]
  ∧ Forall2 (λ h absolute_url, urljoin w site h = Return absolute_url)
            ["/x"; "https://y.test"] ["https://site.test/x"; "https://y.test"].
Proof.
  split; [reflexivity|].
  exact (proj1 (links_returned_are_resolved (serving 200 site three_anchors) start site
                  three_anchors ["https://site.test/x"; "https://y.test"]
                  (or_introl eq_refl))).
Defined.

(** ** What can be raised *)

Ltac escaped e0 Hraised :=
  simpl;
  destruct (isinstance e0 ConnectionError); [done|];
  destruct (isinstance e0 Timeout); [done|];
  destruct (isinstance e0 HTTPError) eqn:?;
  [ destruct (exc_response e0) eqn:?; [done|];
    intros [= <-]; right; split; [done|]; exists e0; by repeat split
  | destruct (isinstance e0 RequestException); [done|];
    destruct (isinstance e0 Exception) eqn:?; [done|];
    intros [= <-]; left; by split ].

(** Property X3.  An exception leaves [fetch_website_contents] only if
    it is raised by the request or by the parser and is no instance of
    [Exception], or if it is the [AttributeError] of the [HTTPError]
    clause on an [HTTPError] without response; one leaves
    [fetch_website_links] only if it is no instance of [Exception]. *)
Theorem module_functions_raise_only (w : World) (p : process) (u : string) (e : exception) :
  ((fetch_website_contents w u p).1 = Raise e →
   (isinstance e Exception = false ∧ (fetch_fails w p u e ∨ parser_raises w p u e))
   ∨ (e = AttributeError_status_code
      ∧ ∃ e', (fetch_fails w p u e' ∨ parser_raises w p u e')
              ∧ isinstance e' HTTPError = true ∧ exc_response e' = None))
  ∧ ((fetch_website_links w u p).1 = Raise e → isinstance e Exception = false).
Proof.
  split.
  - run. destruct (requests_get w _ u headers 10) as [r|e0] eqn:Hr.
    + destruct (is_error_status (status_code r)) eqn:Hs; simpl; [done|].
      destruct (BeautifulSoup w (content r)) as [doc|e0] eqn:Hdoc.
      * destruct (title_of doc); simpl; done.
      * assert (fetch_fails w p u e0 ∨ parser_raises w p u e0) as Hp
          by (right; by exists r).
        escaped e0 Hp.
    + assert (fetch_fails w p u e0 ∨ parser_raises w p u e0) as Hf
        by (left; by apply request_raises).
      escaped e0 Hf.
  - run. destruct (requests_get w _ u headers 10) as [r|e0] eqn:Hr.
    + destruct (is_error_status (status_code r)) eqn:Hs; simpl; [done|].
      destruct (BeautifulSoup w (content r)) as [doc|e0] eqn:Hdoc.
      * destruct (collect_links w u (find_all ["a"] doc) [] (requested u p))
          as [[l|e0] q]; [done|].
        simpl. destruct (isinstance e0 RequestException); [done|].
        destruct (isinstance e0 Exception) eqn:He; [done|]. by intros [= <-].
      * simpl. destruct (isinstance e0 RequestException); [done|].
        destruct (isinstance e0 Exception) eqn:He; [done|]. by intros [= <-].
    + simpl. destruct (isinstance e0 RequestException); [done|].
      destruct (isinstance e0 Exception) eqn:He; [done|]. by intros [= <-].
Qed.

Lemma module_functions_raise_only_witness :
  let w := world [(site, Raise keyboard_interrupt)] [] in
  (fetch_website_contents w site start).1 = Raise keyboard_interrupt
  ∧ (fetch_website_links w site start).1 = Raise keyboard_interrupt
  ∧ isinstance keyboard_interrupt Exception = false.
Proof.
  split; [reflexivity|]. split; [reflexivity|].
  exact (proj2 (module_functions_raise_only (world [(site, Raise keyboard_interrupt)] [])
                  start site keyboard_interrupt) eq_refl).
Defined.

(** Property X13.  [get_contents] raises only on an instance that holds
    a document, and then either the [TypeError] of [None + str], the title
    having no single string, or what the parser raises on the markup of
    the body; [get_links] raises only what [urljoin] raises on an href. *)
Theorem methods_raise_only (w : World) (p : process) (this : WebsiteFetcher)
    (max_length : Z) (e : exception) :
  ((get_contents w max_length (this, p)).1 = Raise e →
   ∃ doc, soup this = Some doc
          ∧ ((e = TypeError_None_plus_str ∧ title_of doc = None)
             ∨ ∃ body, find "body" doc = Some body
                       ∧ BeautifulSoup w (str_tag w body) = Raise e))
  ∧ ((get_links w (this, p)).1 = Raise e →
     ∃ doc href, soup this = Some doc ∧ urljoin w (url this) href = Raise e).
Proof.
  split.
  - run. simpl. destruct (soup this) as [doc|]; [|done]. intros Hraise. exists doc.
    split; [done|]. destruct (find "body" doc) as [body|].
    + destruct (BeautifulSoup w (str_tag w body)) as [copy|e0] eqn:Hcopy.
      * destruct (title_of doc); [done|]. simpl in Hraise. left. by injection Hraise as <-.
      * right. exists body. by injection Hraise as <-.
    + destruct (title_of doc); [done|]. simpl in Hraise. left. by injection Hraise as <-.
  - unfold get_links, self, mbind, Eff_bind. cbn [fst snd].
    destruct (soup this) as [doc|]; [|done]. intros Hraise.
    destruct (collect_links w (url this) (find_all ["a"] doc) [] (this, p))
      as [o st'] eqn:Hrun. simpl in Hraise. subst o.
    apply collect_links_raises in Hrun as [href Hhref]. by exists doc, href.
Qed.

Lemma methods_raise_only_witness :
  let w := serving 200 site untitled in
  let this := {| url := site; soup := Some untitled |} in
  (get_contents w 2000 (this, start)).1 = Raise TypeError_None_plus_str
  ∧ title_of untitled = None.
Proof.
  split; [vm_compute; reflexivity|].
  destruct (proj1 (methods_raise_only (serving 200 site untitled) start
                     {| url := site; soup := Some untitled |} 2000
                     TypeError_None_plus_str) eq_refl)
    as (doc & Hdoc & Hcase).
  injection Hdoc as <-. destruct Hcase as [[_ Htitle]|(body & Hbody & Hcopy)].
  - exact Htitle.
  - reflexivity.
Defined.
